(** * wordpress-plugin-downloader: a shallow embedding

    The program enumerates the pages of the WordPress plugin registry,
    keeps the plugins whose install count and last update pass the
    thresholds, caches the kept records as JSON and downloads and unpacks
    the archive of each one.

    Conventions of the embedding.
    - Python values that come out of [response.json()] and [json.load]
      are values of type [json] (no floats: the records carry none of the
      program's decisions).
    - A [str] is a Rocq [string] holding its UTF-8 bytes; a file holds a
      [string] of bytes as well.
    - A Python exception is a constructor of [exn]; code that may raise
      returns a [result].
    - The platform is POSIX ([os.name <> 'nt']), so the two long-path
      branches of [download_and_extract_plugin] are dead and paths follow
      [PurePosixPath].
    - The file system is a tree without symbolic links or permissions;
      the [OSError]s that remain are the ones the tree itself produces
      (a file where a directory is needed and the reverse). *)

From stdpp Require Import gmap strings list fin_maps.
From Stdlib Require Import ZArith String Ascii Permutation DecimalString DecimalZ DecimalPos DecimalFacts.

Set Warnings "-register-all".
Set Default Proof Using "Type".

Local Open Scope string_scope.
Local Open Scope Z_scope.
Local Open Scope list_scope.

(** ** Python values and exceptions *)

Inductive json : Type :=
| JNull
| JBool (b : bool)
| JInt (n : Z)
| JStr (s : string)
| JList (items : list json)
| JDict (pairs : list (string * json)).

Inductive exn : Type :=
| KeyError
| TypeError
| AttributeError
| ValueError (msg : string)
| RequestException
| BadZipFile
| OSError.

Inductive result (A : Type) : Type :=
| Ok (a : A)
| Raise (e : exn).
Arguments Ok {A} a.
Arguments Raise {A} e.

#[global] Instance result_ret : MRet result := fun A a => Ok a.
#[global] Instance result_bind : MBind result := fun A B f r =>
  match r with
  | Ok a => f a
  | Raise e => Raise e
  end.

(** [d[k]] lookup in a dict kept as the ordered list of its items. *)
Fixpoint dict_get (k : string) (d : list (string * json)) : option json :=
  match d with
  | [] => None
  | (k', v) :: d' => if String.eqb k k' then Some v else dict_get k d'
  end.

(** [obj.get(k, dflt)]: only a dict has the method. *)
Definition py_get (obj : json) (k : string) (dflt : json) : result json :=
  match obj with
  | JDict d => Ok (default dflt (dict_get k d))
  | _ => Raise AttributeError
  end.

(** [obj[k]] with a string key. *)
Definition py_getitem (obj : json) (k : string) : result json :=
  match obj with
  | JDict d =>
      match dict_get k d with
      | Some v => Ok v
      | None => Raise KeyError
      end
  | _ => Raise TypeError
  end.

(** The value of an object used as an integer: [bool] is a subclass of
    [int] in Python, nothing else in a JSON document is a number here. *)
Definition py_int (v : json) : result Z :=
  match v with
  | JInt n => Ok n
  | JBool b => Ok (if b then 1 else 0)
  | _ => Raise TypeError
  end.

(** [a < n] and [a > n] against an [int]. *)
Definition py_lt (a : json) (n : Z) : result bool :=
  x ← py_int a; Ok (x <? n).
Definition py_gt (a : json) (n : Z) : result bool :=
  x ← py_int a; Ok (x >? n).

(** [not obj]: the falsy JSON values. *)
Definition py_not (obj : json) : bool :=
  match obj with
  | JNull | JBool false | JInt 0 | JStr "" | JList [] | JDict [] => true
  | _ => false
  end.

(** [for x in obj]: the items of a list, the keys of a dict, the
    characters of a string. *)
Definition py_iter (obj : json) : result (list json) :=
  match obj with
  | JList l => Ok l
  | JDict d => Ok (map (fun kv => JStr (fst kv)) d)
  | JStr s => Ok (map (fun c => JStr (String c "")) (list_ascii_of_string s))
  | _ => Raise TypeError
  end.

(** ** [datetime.strptime(s, "%Y-%m-%d %I:%M%p %Z")]

    [_strptime] turns the format into the regular expression
    [(\d\d\d\d)-(1[0-2]|0[1-9]|[1-9])-(3[0-1]|[1-2]\d|0[1-9]|[1-9]| [1-9])\s+(1[0-2]|0[1-9]|[1-9]):([0-5]\d|\d)(am|pm)\s+(utc|gmt)]
    (C locale, local zone UTC, case ignored, ASCII digits and white space),
    takes its first match in
    backtracking order, wants it to cover the whole string and then builds
    the date, which fails for a day the month does not have and for the
    year 0. A matcher returns its matches in that order. *)

Record datetime : Type := mk_datetime
  { year : Z; month : Z; day : Z; hour : Z; minute : Z }.

Definition matcher (A : Type) : Type := string → list (A * string).

Definition digit_of (c : ascii) : option Z :=
  let n := Z.of_N (N_of_ascii c) in
  if (48 <=? n) && (n <=? 57) then Some (n - 48) else None.

Definition m_digit (ok : Z → bool) : matcher Z := fun s =>
  match s with
  | String c s' =>
      match digit_of c with
      | Some d => if ok d then [(d, s')] else []
      | None => []
      end
  | EmptyString => []
  end.

Definition m_two (ok1 ok2 : Z → bool) : matcher Z := fun s =>
  r1 ← m_digit ok1 s;
  r2 ← m_digit ok2 (snd r1);
  [(10 * fst r1 + fst r2, snd r2)].

Definition m_alt {A} (p q : matcher A) : matcher A := fun s => p s ++ q s.

Definition lower (c : ascii) : ascii :=
  let n := N_of_ascii c in
  if ((65 <=? n) && (n <=? 90))%N then ascii_of_N (n + 32) else c.

(** A literal word, letters compared without case. *)
Fixpoint m_word (w : string) : matcher unit := fun s =>
  match w with
  | EmptyString => [(tt, s)]
  | String a w' =>
      match s with
      | String c s' => if Ascii.eqb (lower c) (lower a) then m_word w' s' else []
      | EmptyString => []
      end
  end.

Definition is_space (c : ascii) : bool :=
  let n := N_of_ascii c in
  (((9 <=? n) && (n <=? 13)) || ((28 <=? n) && (n <=? 32)))%N.

(** [\s*] is greedy: the longest run first, then the shorter ones. *)
Fixpoint m_spaces_star (s : string) : list (unit * string) :=
  match s with
  | String c s' => if is_space c then m_spaces_star s' ++ [(tt, s)] else [(tt, s)]
  | EmptyString => [(tt, s)]
  end.

Definition m_spaces : matcher unit := fun s =>
  match s with
  | String c s' => if is_space c then m_spaces_star s' else []
  | EmptyString => []
  end.

Definition any : Z → bool := fun _ => true.
Definition between (lo hi : Z) : Z → bool := fun d => (lo <=? d) && (d <=? hi).

Definition m_year : matcher Z := fun s =>
  r1 ← m_two any any s;
  r2 ← m_two any any (snd r1);
  [(100 * fst r1 + fst r2, snd r2)].

(** [%m] and [%I]: [1[0-2]|0[1-9]|[1-9]]. *)
Definition m_month : matcher Z :=
  m_alt (m_two (between 1 1) (between 0 2))
    (m_alt (m_two (between 0 0) (between 1 9)) (m_digit (between 1 9))).

(** [%d]: [3[0-1]|[1-2]\d|0[1-9]|[1-9]| [1-9]]. *)
Definition m_day : matcher Z :=
  m_alt (m_two (between 3 3) (between 0 1))
    (m_alt (m_two (between 1 2) any)
       (m_alt (m_two (between 0 0) (between 1 9))
          (m_alt (m_digit (between 1 9))
             (fun s => r ← m_word " " s; m_digit (between 1 9) (snd r))))).

(** [%M]: [[0-5]\d|\d]. *)
Definition m_minute : matcher Z :=
  m_alt (m_two (between 0 5) any) (m_digit any).

(** [%p]: [am|pm]; the result tells whether it is [pm]. *)
Definition m_ampm : matcher bool :=
  m_alt (fun s => r ← m_word "am" s; [(false, snd r)])
        (fun s => r ← m_word "pm" s; [(true, snd r)]).

Definition m_zone : matcher unit := m_alt (m_word "utc") (m_word "gmt").

Definition is_leap (y : Z) : bool :=
  (y mod 4 =? 0) && (negb (y mod 100 =? 0) || (y mod 400 =? 0)).

Definition days_in_month (y m : Z) : Z :=
  if m =? 2 then (if is_leap y then 29 else 28)
  else if (m =? 4) || (m =? 6) || (m =? 9) || (m =? 11) then 30
  else 31.

(** The 12-hour clock: [12am] is hour 0 and [12pm] is hour 12. *)
Definition hour24 (pm : bool) (h : Z) : Z :=
  if pm then (if h =? 12 then 12 else h + 12)
  else (if h =? 12 then 0 else h).

Definition m_format : matcher datetime := fun s =>
  y ← m_year s;
  l1 ← m_word "-" (snd y);
  m ← m_month (snd l1);
  l2 ← m_word "-" (snd m);
  d ← m_day (snd l2);
  l3 ← m_spaces (snd d);
  h ← m_month (snd l3);
  l4 ← m_word ":" (snd h);
  mi ← m_minute (snd l4);
  p ← m_ampm (snd mi);
  l5 ← m_spaces (snd p);
  z ← m_zone (snd l5);
  [(mk_datetime (fst y) (fst m) (fst d) (hour24 (fst p) (fst h)) (fst mi), snd z)].

(** [None] stands for the [ValueError] of [strptime]. *)
Definition strptime (s : string) : option datetime :=
  match m_format s with
  | (dt, EmptyString) :: _ =>
      if (1 <=? year dt) && (day dt <=? days_in_month (year dt) (month dt))
      then Some dt else None
  | _ => None
  end.

(** ** Enumeration: [get_plugins], [process_page] and the page range *)

(** [needle in obj]. *)
Fixpoint str_contains (needle hay : string) : bool :=
  String.prefix needle hay ||
  match hay with
  | String _ hay' => str_contains needle hay'
  | EmptyString => false
  end.

Definition json_is_str (k : string) (v : json) : bool :=
  match v with
  | JStr s => String.eqb s k
  | _ => false
  end.

Definition py_contains (k : string) (obj : json) : result bool :=
  match obj with
  | JDict d => Ok (bool_decide (is_Some (dict_get k d)))
  | JList l => Ok (existsb (json_is_str k) l)
  | JStr s => Ok (str_contains k s)
  | _ => Raise TypeError
  end.

(** [get_plugins(page)]: the answer of the registry to the request, [None]
    when [requests] raised a [RequestException]; the function then returns
    [None] itself, which is [JNull]. *)
Definition get_plugins (answer : option json) : json :=
  match answer with
  | Some body => body
  | None => JNull
  end.

(** [list(range(1, total_pages + 1))]. *)
Definition page_range (total_pages : Z) : list Z :=
  map Z.of_nat (seq 1 (Z.to_nat total_pages)).

(** How lines 98-138 of [download_all_plugins] end. *)
Inductive enumeration : Type :=
| NoInfo                                  (* message printed, plain [return] *)
| Crashed (e : exn)                       (* an exception leaves the function *)
| Enumerated (valid_plugins : list json).

Section Enumeration.
(** The answer to the synchronous request for page 1, and the answer the
    task of each page receives. *)
Variable bootstrap : option json.
Variable net : Z → option json.
(** The order in which [as_completed] hands over the futures. *)
Variable completion : list Z → list Z.
Variables (min_installs : Z) (max_installs : option Z) (max_pages : option Z).
(** [datetime.now().year]. *)
Variable now_year : Z.

(** Lines 120-126: the inner [try]; every exception means [continue]. *)
Definition recently_updated (plugin : json) : bool :=
  match py_get plugin "last_updated" (JStr "") with
  | Ok (JStr last_updated) =>
      match strptime last_updated with
      | Some updated_dt => negb (year updated_dt <? now_year - 2)
      | None => false
      end
  | _ => false
  end.

(** Lines 114-128: the body of the loop; [true] when the plugin is
    appended to [result]. *)
Definition keep_plugin (plugin : json) : result bool :=
  installs ← py_get plugin "active_installs" (JInt 0);
  low ← py_lt installs min_installs;
  if low : bool then Ok false else
  high ← match max_installs with
         | None => Ok false
         | Some m => py_gt installs m
         end;
  if high : bool then Ok false else
  Ok (recently_updated plugin).

Fixpoint filter_plugins (plugins : list json) : result (list json) :=
  match plugins with
  | [] => Ok []
  | plugin :: rest =>
      keep ← keep_plugin plugin;
      result ← filter_plugins rest;
      Ok (if keep : bool then plugin :: result else result)
  end.

Definition process_page (page : Z) : list json :=
  let data := get_plugins (net page) in
  match (plugins ← py_get data "plugins" (JList []);
         plugins ← py_iter plugins;
         filter_plugins plugins) with
  | Ok result => result
  | Raise _ => []
  end.

(** Lines 103-107. *)
Definition pages_to_fetch (first_page : json) : result (list Z) :=
  info ← py_getitem first_page "info";
  pages ← py_getitem info "pages";
  total_pages ← py_int pages;
  Ok (page_range (match max_pages with
                  | Some m => Z.min total_pages m
                  | None => total_pages
                  end)).

(** Lines 98-138, with the pages requested on the way: page 1 first,
    then one request per task. *)
Definition enumerate : list Z * enumeration :=
  let first_page := get_plugins bootstrap in
  if py_not first_page then ([1], NoInfo) else
  match py_contains "info" first_page with
  | Raise e => ([1], Crashed e)
  | Ok false => ([1], NoInfo)
  | Ok true =>
      match pages_to_fetch first_page with
      | Raise e => ([1], Crashed e)
      | Ok pages =>
          let done := completion pages in
          (1 :: done, Enumerated (List.concat (map process_page done)))
      end
  end.
End Enumeration.

(** ** Paths ([PurePosixPath]) *)

Definition path : Type := list string.

(** [s.split("/")]. *)
Fixpoint split_slash (s : string) : list string :=
  match s with
  | EmptyString => [EmptyString]
  | String c s' =>
      if Ascii.eqb c "/"
      then EmptyString :: split_slash s'
      else match split_slash s' with
           | seg :: segs => String c seg :: segs
           | [] => [String c EmptyString]
           end
  end.

Definition is_segment (seg : string) : bool :=
  negb (String.eqb seg "") && negb (String.eqb seg ".").

(** The parts of [Path(s)] below its root: empty segments and [.] are
    dropped, [..] is kept. The root of an absolute path is a part too, but
    it is [/] or [//], never [..]. *)
Definition parts (s : string) : path := filter is_segment (split_slash s).

Definition is_absolute (s : string) : bool := String.prefix "/" s.

Definition has_dotdot (p : path) : bool := existsb (String.eqb "..") p.

(** [base.joinpath(Path(s))]: an absolute operand replaces the base. *)
Definition joinpath (base : path) (s : string) : path :=
  if is_absolute s then parts s else base ++ parts s.

(** [Path.resolve()] on a path from the root, without symbolic links:
    [..] steps back, and stays at the root there. *)
Definition resolve (p : path) : path :=
  fold_left (fun acc seg => if String.eqb seg ".." then removelast acc else acc ++ [seg]) p [].

(** [p.parent]; the root is its own parent. *)
Definition parent (p : path) : path := removelast p.

(** ** The file system *)

Inductive node : Type :=
| File (data : string)
| Dir (entries : gmap string node).

Fixpoint lookup_path (p : path) (n : node) : option node :=
  match p with
  | [] => Some n
  | seg :: p' =>
      match n with
      | Dir entries => entries !! seg ≫= lookup_path p'
      | File _ => None
      end
  end.

Definition path_exists (p : path) (fs : node) : bool :=
  bool_decide (is_Some (lookup_path p fs)).

Definition path_is_dir (p : path) (fs : node) : bool :=
  match lookup_path p fs with
  | Some (Dir _) => true
  | _ => false
  end.

(** The chain of fresh directories [p] names. *)
Fixpoint fresh_dirs (p : path) : node :=
  match p with
  | [] => Dir ∅
  | seg :: p' => Dir {[ seg := fresh_dirs p' ]}
  end.

(** [p.mkdir(parents=True, exist_ok=True)]: missing directories are
    created from the top; a file on the way ([ENOTDIR]) or at [p] itself
    ([EEXIST]) is an [OSError] and nothing is created. *)
Fixpoint mkdir_parents (p : path) (n : node) : result node :=
  match n with
  | File _ => Raise OSError
  | Dir entries =>
      match p with
      | [] => Ok n
      | seg :: p' =>
          match entries !! seg with
          | None => Ok (Dir (<[seg := fresh_dirs p']> entries))
          | Some child =>
              child' ← mkdir_parents p' child;
              Ok (Dir (<[seg := child']> entries))
          end
      end
  end.

(** [open(p, "wb")] followed by the copy: the parent must be a directory
    and [p] must not be one; an existing file is replaced. *)
Fixpoint write_file (p : path) (data : string) (n : node) : result node :=
  match n with
  | File _ => Raise OSError
  | Dir entries =>
      match p with
      | [] => Raise OSError
      | [seg] =>
          match entries !! seg with
          | Some (Dir _) => Raise OSError
          | _ => Ok (Dir (<[seg := File data]> entries))
          end
      | seg :: p' =>
          match entries !! seg with
          | None => Raise OSError
          | Some child =>
              child' ← write_file p' data child;
              Ok (Dir (<[seg := child']> entries))
          end
      end
  end.

(** [shutil.rmtree(p, ignore_errors=True)]: a directory goes with all it
    holds (the root keeps itself and loses its entries); on a file the
    call fails and the error is ignored. *)
Fixpoint rmtree (p : path) (n : node) : node :=
  match n with
  | File _ => n
  | Dir entries =>
      match p with
      | [] => Dir ∅
      | [seg] =>
          match entries !! seg with
          | Some (Dir _) => Dir (delete seg entries)
          | _ => n
          end
      | seg :: p' =>
          match entries !! seg with
          | None => n
          | Some child => Dir (<[seg := rmtree p' child]> entries)
          end
      end
  end.

(** ** The cache file: [json.dump(obj, f, ensure_ascii=False, indent=2)] *)

Definition dquote : ascii := "034"%char.
Definition newline : ascii := "010"%char.

(** [str(n)] for an [int]. *)
Definition str_of_Z (n : Z) : string := NilZero.string_of_int (Z.to_int n).

Definition hex_digit (n : N) : ascii :=
  if (n <? 10)%N then ascii_of_N (48 + n) else ascii_of_N (87 + n).

(** [encode_basestring]: the quote, the backslash and the control
    characters are escaped, every other byte is written as it is. *)
Definition escape (c : ascii) : string :=
  let n := N_of_ascii c in
  if (n =? 34)%N then String "\" (String dquote "")
  else if (n =? 92)%N then "\\"
  else if (n =? 10)%N then "\n"
  else if (n =? 13)%N then "\r"
  else if (n =? 9)%N then "\t"
  else if (n =? 8)%N then "\b"
  else if (n =? 12)%N then "\f"
  else if (n <? 32)%N
       then "\u00" +:+ String (hex_digit (n / 16)) (String (hex_digit (n mod 16)) "")
  else String c "".

Fixpoint encode_chars (s : string) : string :=
  match s with
  | EmptyString => ""
  | String c s' => escape c +:+ encode_chars s'
  end.

Definition encode_str (s : string) : string :=
  String dquote (encode_chars s +:+ String dquote "").

Fixpoint spaces (n : nat) : string :=
  match n with
  | O => ""
  | S n' => String " " (spaces n')
  end.

Definition newline_indent (level : nat) : string :=
  String newline (spaces (2 * level)).

(** [_iterencode] at the given nesting level, item separator [","] and
    key separator [": "]: the items of a list or dict that is not empty
    stand on lines of their own, one level deeper. *)
Fixpoint dump (level : nat) (v : json) {struct v} : string :=
  match v with
  | JNull => "null"
  | JBool true => "true"
  | JBool false => "false"
  | JInt n => str_of_Z n
  | JStr s => encode_str s
  | JList [] => "[]"
  | JList items =>
      "[" +:+ newline_indent (S level) +:+
      String.concat ("," +:+ newline_indent (S level)) (map (dump (S level)) items) +:+
      newline_indent level +:+ "]"
  | JDict [] => "{}"
  | JDict pairs =>
      "{" +:+ newline_indent (S level) +:+
      String.concat ("," +:+ newline_indent (S level))
        (map (fun kv => encode_str (fst kv) +:+ ": " +:+ dump (S level) (snd kv)) pairs) +:+
      newline_indent level +:+ "}"
  end.

Definition dumps (v : json) : string := dump 0 v.

(** ** The cache file: [json.load(f)] *)

Definition is_ws (c : ascii) : bool :=
  let n := N_of_ascii c in
  ((n =? 32) || (n =? 9) || (n =? 10) || (n =? 13))%N.

Fixpoint skip_ws (s : string) : string :=
  match s with
  | String c s' => if is_ws c then skip_ws s' else s
  | EmptyString => ""
  end.

Definition hex_value (c : ascii) : option N :=
  let n := N_of_ascii c in
  if ((48 <=? n) && (n <=? 57))%N then Some (n - 48)%N
  else if ((97 <=? n) && (n <=? 102))%N then Some (n - 87)%N
  else if ((65 <=? n) && (n <=? 70))%N then Some (n - 55)%N
  else None.

(** The four hexadecimal digits of a [\uXXXX] escape. *)
Definition hex4 (a b c d : ascii) : option N :=
  x1 ← hex_value a; x2 ← hex_value b; x3 ← hex_value c; x4 ← hex_value d;
  Some (((x1 * 16 + x2) * 16 + x3) * 16 + x4)%N.

Definition byte_of (n : N) : ascii := ascii_of_N n.

(** The UTF-8 bytes of a code point; a surrogate has none. *)
Definition utf8 (cp : N) : option string :=
  if (cp <? 128)%N then Some (String (byte_of cp) "")
  else if (cp <? 2048)%N
       then Some (String (byte_of (192 + cp / 64)) (String (byte_of (128 + cp mod 64)) ""))
  else if ((55296 <=? cp) && (cp <=? 57343))%N then None
  else if (cp <? 65536)%N
       then Some (String (byte_of (224 + cp / 4096))
                 (String (byte_of (128 + (cp / 64) mod 64))
                 (String (byte_of (128 + cp mod 64)) "")))
  else Some (String (byte_of (240 + cp / 262144))
            (String (byte_of (128 + (cp / 4096) mod 64))
            (String (byte_of (128 + (cp / 64) mod 64))
            (String (byte_of (128 + cp mod 64)) "")))).

(** The one-letter escapes of [BACKSLASH]. *)
Definition unescape (e : ascii) : option ascii :=
  let n := N_of_ascii e in
  if (n =? 34)%N then Some dquote
  else if (n =? 92)%N then Some "\"%char
  else if (n =? 47)%N then Some "/"%char
  else if (n =? 98)%N then Some "008"%char
  else if (n =? 102)%N then Some "012"%char
  else if (n =? 110)%N then Some "010"%char
  else if (n =? 114)%N then Some "013"%char
  else if (n =? 116)%N then Some "009"%char
  else None.

Definition is_high_surrogate (cp : N) : bool := ((55296 <=? cp) && (cp <=? 56319))%N.
Definition is_low_surrogate (cp : N) : bool := ((56320 <=? cp) && (cp <=? 57343))%N.

(** [scanstring] in strict mode, from the character after the opening
    quote: the string and what follows its closing quote. *)
Fixpoint scanstring (s : string) : option (string * string) :=
  match s with
  | EmptyString => None
  | String c s1 =>
      let n := N_of_ascii c in
      if (n =? 34)%N then Some ("", s1)
      else if (n <? 32)%N then None
      else if (n =? 92)%N then
        match s1 with
        | EmptyString => None
        | String e s2 =>
            if (N_of_ascii e =? 117)%N then
              match s2 with
              | String h1 (String h2 (String h3 (String h4 s3))) =>
                  cp ← hex4 h1 h2 h3 h4;
                  if is_high_surrogate cp then
                    match s3 with
                    | String b (String u (String g1 (String g2 (String g3 (String g4 s4))))) =>
                        if ((N_of_ascii b =? 92) && (N_of_ascii u =? 117))%N then
                          cp2 ← hex4 g1 g2 g3 g4;
                          if is_low_surrogate cp2 then
                            bytes ← utf8 (65536 + (cp - 55296) * 1024 + (cp2 - 56320))%N;
                            r ← scanstring s4;
                            Some (bytes +:+ fst r, snd r)
                          else None
                        else None
                    | _ => None
                    end
                  else
                    bytes ← utf8 cp;
                    r ← scanstring s3;
                    Some (bytes +:+ fst r, snd r)
              | _ => None
              end
            else
              ch ← unescape e;
              r ← scanstring s2;
              Some (String ch (fst r), snd r)
        end
      else
        r ← scanstring s1;
        Some (String c (fst r), snd r)
  end.

Definition digit_uint (c : ascii) (u : Decimal.uint) : option Decimal.uint :=
  let n := N_of_ascii c in
  if (n =? 48)%N then Some (Decimal.D0 u)
  else if (n =? 49)%N then Some (Decimal.D1 u)
  else if (n =? 50)%N then Some (Decimal.D2 u)
  else if (n =? 51)%N then Some (Decimal.D3 u)
  else if (n =? 52)%N then Some (Decimal.D4 u)
  else if (n =? 53)%N then Some (Decimal.D5 u)
  else if (n =? 54)%N then Some (Decimal.D6 u)
  else if (n =? 55)%N then Some (Decimal.D7 u)
  else if (n =? 56)%N then Some (Decimal.D8 u)
  else if (n =? 57)%N then Some (Decimal.D9 u)
  else None.

(** The longest run of decimal digits and what follows it. *)
Fixpoint scan_digits (s : string) : Decimal.uint * string :=
  match s with
  | EmptyString => (Decimal.Nil, s)
  | String c s' =>
      let r := scan_digits s' in
      match digit_uint c (fst r) with
      | Some u => (u, snd r)
      | None => (Decimal.Nil, s)
      end
  end.

Definition starts_fraction (s : string) : bool :=
  match s with
  | String c _ =>
      let n := N_of_ascii c in ((n =? 46) || (n =? 101) || (n =? 69))%N
  | EmptyString => false
  end.

(** [NUMBER_RE], integers only: an optional minus sign, then either a
    single 0 or a digit from 1 to 9 and any digits; a fraction or an
    exponent would make a float, which the embedding has not. *)
Definition scan_unsigned (s : string) : option (Decimal.uint * string) :=
  match s with
  | String c s' =>
      if (N_of_ascii c =? 48)%N then Some (Decimal.D0 Decimal.Nil, s')
      else match scan_digits s with
           | (Decimal.Nil, _) => None
           | (u, rest) => Some (u, rest)
           end
  | EmptyString => None
  end.

Definition scan_number (s : string) : option (json * string) :=
  match s with
  | String c s' =>
      if (N_of_ascii c =? 45)%N then
        r ← scan_unsigned s';
        if starts_fraction (snd r) then None
        else Some (JInt (Z.of_int (Decimal.Neg (fst r))), snd r)
      else
        r ← scan_unsigned s;
        if starts_fraction (snd r) then None
        else Some (JInt (Z.of_int (Decimal.Pos (fst r))), snd r)
  | EmptyString => None
  end.

(** [d[k] = v] on the ordered items of a dict. *)
Fixpoint dict_set (k : string) (v : json) (d : list (string * json)) : list (string * json) :=
  match d with
  | [] => [(k, v)]
  | (k', v') :: d' =>
      if String.eqb k k' then (k, v) :: d' else (k', v') :: dict_set k v d'
  end.

(** [dict(pairs)]. *)
Definition dict_of_pairs (pairs : list (string * json)) : list (string * json) :=
  fold_left (fun d kv => dict_set (fst kv) (snd kv) d) pairs [].

Definition drop_prefix (w s : string) : option string :=
  if String.prefix w s
  then Some (String.substring (String.length w) (String.length s - String.length w) s)
  else None.

(** [scan_once], [JSONArray] and [JSONObject]; the fuel bounds the number
    of nested calls, and the length of the text is always enough of it. *)
Fixpoint scan_once (fuel : nat) (s : string) : option (json * string) :=
  match fuel with
  | O => None
  | S fuel' =>
      match s with
      | EmptyString => None
      | String c s' =>
          let n := N_of_ascii c in
          if (n =? 34)%N then
            r ← scanstring s'; Some (JStr (fst r), snd r)
          else if (n =? 123)%N then
            match skip_ws s' with
            | String c1 s1 =>
                if (N_of_ascii c1 =? 125)%N then Some (JDict [], s1)
                else r ← parse_pairs fuel' (String c1 s1);
                     Some (JDict (dict_of_pairs (fst r)), snd r)
            | EmptyString => None
            end
          else if (n =? 91)%N then
            match skip_ws s' with
            | String c1 s1 =>
                if (N_of_ascii c1 =? 93)%N then Some (JList [], s1)
                else r ← parse_items fuel' (String c1 s1);
                     Some (JList (fst r), snd r)
            | EmptyString => None
            end
          else match drop_prefix "null" s, drop_prefix "true" s, drop_prefix "false" s with
               | Some rest, _, _ => Some (JNull, rest)
               | _, Some rest, _ => Some (JBool true, rest)
               | _, _, Some rest => Some (JBool false, rest)
               | _, _, _ => scan_number s
               end
      end
  end
with parse_items (fuel : nat) (s : string) : option (list json * string) :=
  match fuel with
  | O => None
  | S fuel' =>
      r ← scan_once fuel' s;
      match skip_ws (snd r) with
      | String c s1 =>
          if (N_of_ascii c =? 93)%N then Some ([fst r], s1)
          else if (N_of_ascii c =? 44)%N then
            rs ← parse_items fuel' (skip_ws s1);
            Some (fst r :: fst rs, snd rs)
          else None
      | EmptyString => None
      end
  end
with parse_pairs (fuel : nat) (s : string) : option (list (string * json) * string) :=
  match fuel with
  | O => None
  | S fuel' =>
      match s with
      | String q s0 =>
          if (N_of_ascii q =? 34)%N then
            k ← scanstring s0;
            match skip_ws (snd k) with
            | String colon s1 =>
                if (N_of_ascii colon =? 58)%N then
                  r ← scan_once fuel' (skip_ws s1);
                  match skip_ws (snd r) with
                  | String c s2 =>
                      if (N_of_ascii c =? 125)%N then Some ([(fst k, fst r)], s2)
                      else if (N_of_ascii c =? 44)%N then
                        rs ← parse_pairs fuel' (skip_ws s2);
                        Some ((fst k, fst r) :: fst rs, snd rs)
                      else None
                  | EmptyString => None
                  end
                else None
            | EmptyString => None
            end
          else None
      | EmptyString => None
      end
  end.

(** [json.loads]: one value, white space around it, nothing else. *)
Definition loads (s : string) : option json :=
  r ← scan_once (S (String.length s)) (skip_ws s);
  match skip_ws (snd r) with
  | EmptyString => Some (fst r)
  | _ => None
  end.

(** ** Archives and the download of one plugin *)

(** A member of the archive: [member.filename] and the bytes
    [z.open(member)] yields. *)
Record ZipInfo : Type := mk_member { filename : string; content : string }.

(** [member.is_dir()]: the name ends with a slash. *)
Fixpoint ends_with_slash (s : string) : bool :=
  match s with
  | EmptyString => false
  | String c EmptyString => Ascii.eqb c "/"
  | String _ s' => ends_with_slash s'
  end.

Definition member_is_dir (member : ZipInfo) : bool := ends_with_slash (filename member).

(** What [requests.get(download_link)] and [zipfile.ZipFile] make of a
    link: a [RequestException], a [BadZipFile], or the members. *)
Inductive response : Type :=
| RequestFailed
| NotAZip
| ZipFile (infolist : list ZipInfo).

Inductive request : Type :=
| PageRequest (page : Z)
| ArchiveRequest (download_link : json).

(** The world the program acts on: the file system and the requests it
    has sent, oldest first. *)
Record world : Type := mk_world { fs : node; sent : list request }.

(** Lines 61-63: the member is skipped. *)
Definition member_is_unsafe (member : ZipInfo) : bool :=
  has_dotdot (parts (filename member)) || is_absolute (filename member).

(** Lines 59-77 for one member: the exception, if one is raised, and the
    file system it leaves. *)
Definition extract_member (plugin_path : path) (member : ZipInfo) (fs : node) : option exn * node :=
  if member_is_unsafe member then (None, fs) else
  let dest_file_path := plugin_path ++ parts (filename member) in
  let dest_dir := parent dest_file_path in
  match mkdir_parents dest_dir fs with
  | Raise e => (Some e, fs)
  | Ok fs1 =>
      if member_is_dir member then (None, fs1) else
      match write_file dest_file_path (content member) fs1 with
      | Raise e => (Some e, fs1)
      | Ok fs2 => (None, fs2)
      end
  end.

Fixpoint extract_members (plugin_path : path) (members : list ZipInfo) (fs : node) : option exn * node :=
  match members with
  | [] => (None, fs)
  | member :: rest =>
      match extract_member plugin_path member fs with
      | (Some e, fs') => (Some e, fs')
      | (None, fs') => extract_members plugin_path rest fs'
      end
  end.

(** [f"{installs}"] for the values that reach the message. *)
Definition str_of_installs (installs : json) : string :=
  match installs with
  | JInt n => str_of_Z n
  | JBool true => "True"
  | JBool false => "False"
  | _ => ""
  end.

(** [Path(download_dir) / "plugins" / slug], resolved. *)
Definition plugin_path_of (download_dir : path) (slug : json) : result path :=
  match slug with
  | JStr s => Ok (resolve (joinpath (download_dir ++ ["plugins"]) s))
  | _ => Raise TypeError
  end.

Section Download.
(** The answer to the request for an archive. *)
Variable web : json → response.
Variable download_dir : path.
Variables (min_installs : Z) (max_installs : option Z).

(** Lines 29-84. The exception that leaves the function, if any, and the
    world after the call. *)
Definition download_and_extract_plugin (plugin : json) (w : world) : option exn * world :=
  match py_getitem plugin "slug" with
  | Raise e => (Some e, w)
  | Ok slug =>
  match py_get plugin "active_installs" (JInt 0) with
  | Raise e => (Some e, w)
  | Ok installs =>
  match py_lt installs min_installs with
  | Raise e => (Some e, w)
  | Ok true =>
      (Some (ValueError (str_of_installs installs +:+ " installs < min_installs=" +:+
                         str_of_Z min_installs)), w)
  | Ok false =>
  match (match max_installs with
         | Some m => py_gt installs m
         | None => Ok false
         end) with
  | Raise e => (Some e, w)
  | Ok true =>
      (Some (ValueError (str_of_installs installs +:+ " installs > max_installs=" +:+
                         str_of_Z (default 0 max_installs))), w)
  | Ok false =>
  match py_get plugin "download_link" JNull with
  | Raise e => (Some e, w)
  | Ok download_link =>
  match plugin_path_of download_dir slug with
  | Raise e => (Some e, w)
  | Ok plugin_path =>
      let fs1 := if path_exists plugin_path (fs w)
                 then rmtree plugin_path (fs w) else fs w in
      let sent1 := sent w ++ [ArchiveRequest download_link] in
      match web download_link with
      | RequestFailed => (None, mk_world fs1 sent1)
      | NotAZip => (None, mk_world fs1 sent1)
      | ZipFile infolist =>
          (* an [OSError] of the extraction is caught at line 83 *)
          (None, mk_world (snd (extract_members plugin_path infolist fs1)) sent1)
      end
  end end end end end end.

(** Lines 150-158: [ValueError] is caught, anything else leaves the
    loop and the function. *)
Fixpoint download_loop (valid_plugins : list json) (w : world) : option exn * world :=
  match valid_plugins with
  | [] => (None, w)
  | plugin :: rest =>
      match download_and_extract_plugin plugin w with
      | (None, w') => download_loop rest w'
      | (Some (ValueError _), w') => download_loop rest w'
      | (Some e, w') => (Some e, w')
      end
  end.
End Download.

(** ** [download_all_plugins] *)

Definition CACHE_FILENAME : string := "plugins_cache.json".

(** [open(p, "r").read()]. *)
Definition read_file (p : path) (fs : node) : result string :=
  match lookup_path p fs with
  | Some (File data) => Ok data
  | _ => Raise OSError
  end.

(** Lines 143-144: the file is opened for writing, which empties it, and
    receives the dump. *)
Definition save_cache (cache_path : path) (valid_plugins : list json) (fs : node) : result node :=
  write_file cache_path (dumps (JList valid_plugins)) fs.

(** Lines 95-96; a text that is no JSON document is a [ValueError]. *)
Definition load_cache (cache_path : path) (fs : node) : result json :=
  text ← read_file cache_path fs;
  match loads text with
  | Some valid_plugins => Ok valid_plugins
  | None => Raise (ValueError "JSONDecodeError")
  end.

Section Program.
Variable bootstrap : option json.
Variable net : Z → option json.
Variable completion : list Z → list Z.
Variable web : json → response.
Variable now_year : Z.
Variable download_dir : path.
Variables (min_installs : Z) (max_installs max_pages : option Z) (use_cache : bool).

Definition cache_path : path := download_dir ++ [CACHE_FILENAME].

(** Lines 146-158, once [valid_plugins] is known. *)
Definition download_valid (valid_plugins : json) (w : world) : option exn * world :=
  if py_not valid_plugins then (None, w) else
  match py_iter valid_plugins with
  | Raise e => (Some e, w)
  | Ok plugins => download_loop web download_dir min_installs max_installs plugins w
  end.

Definition download_all_plugins (w : world) : option exn * world :=
  match mkdir_parents (download_dir ++ ["plugins"]) (fs w) with
  | Raise e => (Some e, w)
  | Ok fs0 =>
      let w0 := mk_world fs0 (sent w) in
      if use_cache && path_exists cache_path fs0 then
        match load_cache cache_path fs0 with
        | Raise e => (Some e, w0)
        | Ok valid_plugins => download_valid valid_plugins w0
        end
      else
        let e := enumerate bootstrap net completion min_installs max_installs max_pages now_year in
        let w1 := mk_world fs0 (sent w ++ map PageRequest (fst e)) in
        match snd e with
        | NoInfo => (None, w1)
        | Crashed ex => (Some ex, w1)
        | Enumerated valid_plugins =>
            match save_cache cache_path valid_plugins fs0 with
            | Raise ex => (Some ex, w1)
            | Ok fs1 => download_valid (JList valid_plugins) (mk_world fs1 (sent w1))
            end
        end
  end.
End Program.

(** ** Vocabulary of the statements and sample data *)

(** The bounds on the install count, as both functions test them. *)
Definition within_bounds (min_installs : Z) (max_installs : option Z) (installs : Z) : Prop :=
  min_installs ≤ installs ∧
  (max_installs = None ∨ ∃ m, max_installs = Some m ∧ installs ≤ m).

(** A record of the registry. *)
Definition sample_record (installs : Z) (last_updated : string) : list (string * json) :=
  [("slug", JStr "akismet"); ("active_installs", JInt installs);
   ("last_updated", JStr last_updated);
   ("download_link", JStr "https://downloads.wordpress.org/plugin/akismet.zip")].

(** A record without [active_installs]. *)
Definition record_without_installs : list (string * json) :=
  [("slug", JStr "hello-dolly"); ("last_updated", JStr "2024-03-14 9:05pm GMT");
   ("download_link", JStr "https://downloads.wordpress.org/plugin/hello-dolly.zip")].

(** A registry that answers no request for an archive. *)
Definition web_down : json → response := fun _ => RequestFailed.

Definition empty_world : world := mk_world (Dir ∅) [].

(** The answer to the request for page 1 gives a total page count: it is
    an object whose [info] has an integer under [pages]. *)
Definition yields_page_count (answer : option json) (total : Z) : Prop :=
  ∃ d info pages,
    answer = Some (JDict d) ∧ dict_get "info" d = Some info ∧
    py_getitem info "pages" = Ok pages ∧ py_int pages = Ok total.

(** [min(total_pages, max_pages)], or [total_pages] without [max_pages]. *)
Definition page_bound (max_pages : option Z) (total : Z) : Z :=
  match max_pages with
  | Some m => Z.min total m
  | None => total
  end.

(** A first page that announces [total] pages. *)
Definition first_page_of (total : Z) : json :=
  JDict [("info", JDict [("page", JInt 1); ("pages", JInt total)]); ("plugins", JList [])].

(** A page of the registry with the given records. *)
Definition page_of (records : list (list (string * json))) : json :=
  JDict [("info", JDict [("page", JInt 1); ("pages", JInt 3)]);
         ("plugins", JList (map JDict records))].

(** Three pages, of which the second cannot be fetched. *)
Definition net_page2_down : Z → option json := fun page =>
  if page =? 1 then Some (page_of [sample_record 3000 "2024-03-14 9:05pm GMT"])
  else if page =? 3 then Some (page_of [sample_record 4000 "2025-01-02 10:15am GMT"])
  else None.

(** The tree a call of [download_and_extract_plugin] leaves when it gets
    as far as the download: the old plugin directory is removed, then the
    members are extracted until one raises. *)
Definition unpacked (plugin_path : path) (answer : response) (fs : node) : node :=
  let cleared := if path_exists plugin_path fs then rmtree plugin_path fs else fs in
  match answer with
  | ZipFile infolist => snd (extract_members plugin_path infolist cleared)
  | _ => cleared
  end.

(** The extraction into the directory [seg] of a directory, seen from the
    entry [seg]: [None] when the directory has no such entry. *)
Definition slot_member (member : ZipInfo) (slot : option node) : option exn * option node :=
  if member_is_unsafe member then (None, slot) else
  match parts (filename member) with
  | [] =>
      if member_is_dir member then (None, slot) else
      match slot with
      | Some (Dir _) => (Some OSError, slot)
      | _ => (None, Some (File (content member)))
      end
  | seg :: q =>
      match (match slot with
             | None => Ok (fresh_dirs (parent (seg :: q)))
             | Some child => mkdir_parents (parent (seg :: q)) child
             end) with
      | Raise e => (Some e, slot)
      | Ok child1 =>
          if member_is_dir member then (None, Some child1) else
          match write_file (seg :: q) (content member) child1 with
          | Raise e => (Some e, Some child1)
          | Ok child2 => (None, Some child2)
          end
      end
  end.

Fixpoint slot_members (members : list ZipInfo) (slot : option node) : option exn * option node :=
  match members with
  | [] => (None, slot)
  | member :: rest =>
      match slot_member member slot with
      | (Some e, slot') => (Some e, slot')
      | (None, slot') => slot_members rest slot'
      end
  end.

(** [rmtree] seen from the entry: a directory goes, a file stays. *)
Definition slot_clear (slot : option node) : option node :=
  match slot with
  | Some (Dir _) => None
  | _ => slot
  end.

(** The resolved directory of the plugin with the string [slug]. *)
Definition plugin_dir (download_dir : path) (slug : string) : path :=
  resolve (joinpath (download_dir ++ ["plugins"]) slug).

(** An archive made of a directory member only, one of unsafe members
    only, and a usual one. *)
Definition archive_empty_dir : list ZipInfo := [mk_member "emptydir/" ""].

Definition archive_unsafe : list ZipInfo :=
  [mk_member "../etc/passwd" "root"; mk_member "/etc/passwd" "root";
   mk_member "inc/../../escape.php" "x"].

Definition archive_usual : list ZipInfo :=
  [mk_member "bar/" ""; mk_member "bar/bar.php" "<?php"; mk_member "bar/inc/util.php" "<?php //"].

(** An archive whose second member needs a directory where the first one
    has put a file. *)
Definition archive_clash : list ZipInfo :=
  [mk_member "a" "1"; mk_member "a/b" "2"; mk_member "c" "3"].

(** The record of a plugin with 3000 installs, updated in 2024. *)
Definition plugin_record (slug : string) : list (string * json) :=
  [("slug", JStr slug); ("active_installs", JInt 3000);
   ("last_updated", JStr "2024-03-14 9:05pm GMT");
   ("download_link", JStr slug)].

(** A site that serves the same archive under every link. *)
Definition web_serving (members : list ZipInfo) : json → response :=
  fun _ => ZipFile members.

(** A site whose archive for [foo] is no zip file. *)
Definition web_foo_corrupt : json → response := fun link =>
  match link with
  | JStr s => if String.eqb s "foo" then NotAZip else ZipFile archive_usual
  | _ => RequestFailed
  end.

(** A download directory [/srv] where an earlier run has left a plugin
    [bar] with a file the archive no longer has. *)
Definition stale_fs : node :=
  Dir {[ "srv" := Dir {[ "plugins" := Dir {[ "bar" := Dir {[ "old.php" := File "old" ]} ]} ]} ]}.

Definition stale_world : world := mk_world stale_fs [].

(** A value [json.dump] can write and [json.load] gives back: the keys of
    every dict in it are distinct, as the keys of a Python dict are. *)
Fixpoint wf_json (v : json) : Prop :=
  match v with
  | JList items => fold_right (fun x P => wf_json x ∧ P) True items
  | JDict pairs =>
      List.NoDup (map fst pairs) ∧ fold_right (fun kv P => wf_json (snd kv) ∧ P) True pairs
  | _ => True
  end.

(** The number of calls [scan_once] and its loops need for a value. *)
Fixpoint json_size (v : json) : nat :=
  match v with
  | JList items => S (fold_right (fun x n => S (json_size x + n)) O items)
  | JDict pairs => S (fold_right (fun kv n => S (json_size (snd kv) + n)) O pairs)
  | _ => 1%nat
  end.

(** What may follow a value in a dump: the end of the text, a comma or a
    line break. *)
Definition ends_value (rest : string) : Prop :=
  match rest with
  | EmptyString => True
  | String c _ => c = ","%char ∨ c = newline
  end.

(** The records of a cache file. *)
Definition sample_records : list json :=
  [JDict (sample_record 3000 "2024-03-14 9:05pm GMT");
   JDict [("slug", JStr "hello-dolly"); ("active_installs", JInt (-1));
          ("tags", JDict [("a", JStr "x\y"); ("b", JNull)]);
          ("ratings", JList [JInt 5; JInt 0; JBool true; JList []; JDict []])]].

(** The characters an integer of a dump starts with. *)
Definition number_head (c : ascii) : Prop :=
  In c ["-"; "0"; "1"; "2"; "3"; "4"; "5"; "6"; "7"; "8"; "9"]%char.

(** A value that [scan_once] reads back from its dump, at every nesting
    level and before everything that may follow a value. *)
Definition reads_back (v : json) : Prop :=
  ∀ level fuel rest,
    wf_json v → (json_size v ≤ fuel)%nat → ends_value rest →
    scan_once fuel (dump level v +:+ rest) = Some (v, rest).

(** ** More sample data *)

(** A record whose install count is [null]. *)
Definition record_null_installs : list (string * json) :=
  [("slug", JStr "broken"); ("active_installs", JNull);
   ("last_updated", JStr "2024-03-14 9:05pm GMT")].

(** The filter of [process_page] as a test on one record. *)
Definition kept (min_installs : Z) (max_installs : option Z) (now_year : Z) (plugin : json) : bool :=
  match keep_plugin min_installs max_installs now_year plugin with
  | Ok true => true
  | _ => false
  end.

(** A registry whose first page holds a record with a [null] install
    count between two good ones, and whose second page is good. *)
Definition net_bad_record : Z → option json := fun page =>
  if page =? 1 then
    Some (page_of [sample_record 3000 "2024-03-14 9:05pm GMT"; record_null_installs;
                   sample_record 4000 "2025-01-02 10:15am GMT"])
  else if page =? 2 then
    Some (page_of [sample_record 10 "2024-03-14 9:05pm GMT";
                   sample_record 4000 "2025-01-02 10:15am GMT";
                   sample_record 4000 "2025-01-02 10:15am GMT";
                   sample_record 5000 "2019-01-02 10:15am GMT"])
  else None.

(** A segment that names one entry of a directory. *)
Definition plain_segment (seg : string) : Prop :=
  seg ≠ "" ∧ seg ≠ "." ∧ seg ≠ ".." ∧ ¬ In "/"%char (list_ascii_of_string seg).

(** A download directory with a cache file, a file of another plugin and
    the plugin [bar] of an earlier run. *)
Definition shared_fs : node :=
  Dir {[ "srv" := Dir {[ "plugins_cache.json" := File "[]";
                         "plugins" := Dir {[ "foo" := Dir {[ "foo.php" := File "foo" ]};
                                             "bar" := Dir {[ "old.php" := File "old" ]} ]} ]} ]}.

(** An archive that tries to leave the plugin directory and also holds
    usual members. *)
Definition archive_mixed : list ZipInfo :=
  [mk_member "../foo/foo.php" "owned"; mk_member "/srv/plugins_cache.json" "owned";
   mk_member "bar/bar.php" "<?php"; mk_member "bar/./inc//util.php" "<?php //";
   mk_member "bar/bar.php" "<?php // 2"].

(** The link [download_and_extract_plugin] asks for: [download_link], or
    [None] for a record without one. *)
Definition requested_link (plugin : json) : json :=
  match py_get plugin "download_link" JNull with
  | Ok link => link
  | Raise _ => JNull
  end.

(** A record the filter passes, without a [slug]. *)
Definition record_without_slug : list (string * json) :=
  [("name", JStr "Nameless"); ("active_installs", JInt 3000);
   ("last_updated", JStr "2024-03-14 9:05pm GMT")].

(** A registry of one page with the plugins [foo] and [bar]. *)
Definition net_foo_bar : Z → option json := fun page =>
  if page =? 1 then
    Some (JDict [("info", JDict [("page", JInt 1); ("pages", JInt 1)]);
                 ("plugins", JList [JDict (plugin_record "foo"); JDict (plugin_record "bar")])])
  else None.

(** * Properties *)

(** ** Small facts about the Python layer *)

Lemma py_lt_int (v : json) (x n : Z) :
  py_int v = Ok x → py_lt v n = Ok (x <? n).
Proof. unfold py_lt. intros ->. reflexivity. Qed.

Lemma py_gt_int (v : json) (x n : Z) :
  py_int v = Ok x → py_gt v n = Ok (x >? n).
Proof. unfold py_gt. intros ->. reflexivity. Qed.

Example strptime_typical :
  strptime "2024-03-14 9:05pm GMT" = Some (mk_datetime 2024 3 14 21 5).
Proof. reflexivity. Qed.

Example strptime_midnight :
  strptime "2023-12-01 12:30am UTC" = Some (mk_datetime 2023 12 1 0 30).
Proof. reflexivity. Qed.

Example strptime_bad_day : strptime "2023-02-29 1:00pm GMT" = None.
Proof. reflexivity. Qed.

Example strptime_iso : strptime "2024-03-14T21:05:00Z" = None.
Proof. reflexivity. Qed.

Example strptime_trailing : strptime "2024-03-14 9:05pm GMT " = None.
Proof. reflexivity. Qed.

Example strptime_empty : strptime "" = None.
Proof. reflexivity. Qed.

(** ** The filter of [process_page] *)

Section Filter.
Variables (min_installs : Z) (max_installs : option Z) (now_year : Z).

Lemma recently_updated_iff (record : list (string * json)) :
  recently_updated now_year (JDict record) = true ↔
  ∃ s dt, dict_get "last_updated" record = Some (JStr s) ∧
          strptime s = Some dt ∧ now_year - 2 ≤ year dt.
Proof.
  unfold recently_updated, py_get.
  destruct (dict_get "last_updated" record) as [v|] eqn:Hv; simpl.
  - destruct v as [ | | |s| | ]; try (split; [discriminate | intros (s' & dt & [=] & _)]).
    destruct (strptime s) as [dt|] eqn:Hs.
    + rewrite negb_true_iff, Z.ltb_ge. split.
      * intros Hy. exists s, dt. auto.
      * intros (s' & dt' & [= <-] & Hs' & Hy). rewrite Hs in Hs'. by injection Hs' as ->.
    + split; [discriminate|]. intros (s' & dt' & [= <-] & Hs' & _). congruence.
  - split; [discriminate|]. intros (s' & dt' & [=] & _).
Qed.

Lemma keep_plugin_bounds (record : list (string * json)) (installs : Z) :
  py_int (default (JInt 0) (dict_get "active_installs" record)) = Ok installs →
  keep_plugin min_installs max_installs now_year (JDict record) =
  Ok ((min_installs <=? installs) &&
      match max_installs with Some m => installs <=? m | None => true end &&
      recently_updated now_year (JDict record)).
Proof.
  intros Hi. unfold keep_plugin. simpl.
  rewrite (py_lt_int _ _ _ Hi). simpl.
  destruct (Z.ltb_spec installs min_installs) as [Hlt|Hge].
  - replace (min_installs <=? installs) with false by (symmetry; apply Z.leb_gt; lia).
    reflexivity.
  - replace (min_installs <=? installs) with true by (symmetry; apply Z.leb_le; lia).
    destruct max_installs as [m|]; simpl; [|reflexivity].
    rewrite (py_gt_int _ _ _ Hi). simpl.
    rewrite Z.gtb_ltb.
    destruct (Z.ltb_spec m installs) as [Hlt|Hle'].
    + replace (installs <=? m) with false by (symmetry; apply Z.leb_gt; lia). reflexivity.
    + replace (installs <=? m) with true by (symmetry; apply Z.leb_le; lia). reflexivity.
Qed.

End Filter.


(** ** The bounds at download time *)

Section Revalidation.
Variable web : json → response.
Variable download_dir : path.
Variables (min_installs : Z) (max_installs : option Z).

Lemma download_below_min (record : list (string * json)) (slug : json) (installs : Z) (w : world) :
  dict_get "slug" record = Some slug →
  py_int (default (JInt 0) (dict_get "active_installs" record)) = Ok installs →
  installs < min_installs →
  download_and_extract_plugin web download_dir min_installs max_installs (JDict record) w =
  (Some (ValueError (str_of_installs (default (JInt 0) (dict_get "active_installs" record)) +:+
                     " installs < min_installs=" +:+ str_of_Z min_installs)), w).
Proof.
  intros Hs Hi Hlt. unfold download_and_extract_plugin. simpl. rewrite Hs.
  rewrite (py_lt_int _ _ _ Hi).
  by replace (installs <? min_installs) with true by (symmetry; apply Z.ltb_lt; lia).
Qed.

Lemma download_above_max (record : list (string * json)) (slug : json) (installs m : Z) (w : world) :
  dict_get "slug" record = Some slug →
  py_int (default (JInt 0) (dict_get "active_installs" record)) = Ok installs →
  min_installs ≤ installs →
  max_installs = Some m →
  m < installs →
  download_and_extract_plugin web download_dir min_installs max_installs (JDict record) w =
  (Some (ValueError (str_of_installs (default (JInt 0) (dict_get "active_installs" record)) +:+
                     " installs > max_installs=" +:+ str_of_Z m)), w).
Proof.
  intros Hs Hi Hge -> Hgt. unfold download_and_extract_plugin. simpl. rewrite Hs.
  rewrite (py_lt_int _ _ _ Hi).
  replace (installs <? min_installs) with false by (symmetry; apply Z.ltb_ge; lia).
  rewrite (py_gt_int _ _ _ Hi).
  by replace (installs >? m) with true by (symmetry; rewrite Z.gtb_ltb; apply Z.ltb_lt; lia).
Qed.

Lemma download_within_bounds (record : list (string * json)) (slug : json) (installs : Z) (w : world) :
  dict_get "slug" record = Some slug →
  py_int (default (JInt 0) (dict_get "active_installs" record)) = Ok installs →
  within_bounds min_installs max_installs installs →
  ∀ reason,
    fst (download_and_extract_plugin web download_dir min_installs max_installs (JDict record) w)
    ≠ Some (ValueError reason).
Proof.
  intros Hs Hi [Hmin Hmax] reason. unfold download_and_extract_plugin. simpl. rewrite Hs.
  rewrite (py_lt_int _ _ _ Hi).
  replace (installs <? min_installs) with false by (symmetry; apply Z.ltb_ge; lia).
  assert (match max_installs with Some m => py_gt (default (JInt 0) (dict_get "active_installs" record)) m
                                | None => Ok false end = Ok false) as ->.
  { destruct Hmax as [->|(m & -> & Hm)]; [done|].
    rewrite (py_gt_int _ _ _ Hi). f_equal. rewrite Z.gtb_ltb. apply Z.ltb_ge. lia. }
  unfold plugin_path_of. destruct slug; try (simpl; congruence).
  by destruct (web _).
Qed.

(** C7: a record whose install count violates the bounds at download time
    makes [download_and_extract_plugin] raise the [ValueError] that carries
    the reason, with the file system untouched and no request sent, and the
    loop of [download_all_plugins] catches it and goes on with the
    remaining plugins. *)
Theorem out_of_bounds_is_skipped
    (record : list (string * json)) (slug : json) (installs : Z) (w : world) (rest : list json) :
  dict_get "slug" record = Some slug →
  py_int (default (JInt 0) (dict_get "active_installs" record)) = Ok installs →
  (installs < min_installs ∨ ∃ m, max_installs = Some m ∧ installs > m) →
  (∃ reason,
     download_and_extract_plugin web download_dir min_installs max_installs (JDict record) w =
     (Some (ValueError reason), w) ∧
     (reason = str_of_installs (default (JInt 0) (dict_get "active_installs" record)) +:+
                 " installs < min_installs=" +:+ str_of_Z min_installs ∨
      ∃ m, max_installs = Some m ∧
           reason = str_of_installs (default (JInt 0) (dict_get "active_installs" record)) +:+
                      " installs > max_installs=" +:+ str_of_Z m)) ∧
  download_loop web download_dir min_installs max_installs (JDict record :: rest) w =
  download_loop web download_dir min_installs max_installs rest w.
Proof.
  intros Hs Hi Hviol.
  assert (∃ reason,
     download_and_extract_plugin web download_dir min_installs max_installs (JDict record) w =
     (Some (ValueError reason), w) ∧
     (reason = str_of_installs (default (JInt 0) (dict_get "active_installs" record)) +:+
                 " installs < min_installs=" +:+ str_of_Z min_installs ∨
      ∃ m, max_installs = Some m ∧
           reason = str_of_installs (default (JInt 0) (dict_get "active_installs" record)) +:+
                      " installs > max_installs=" +:+ str_of_Z m)) as (reason & Hd & Hr).
  { destruct (Z.lt_ge_cases installs min_installs) as [Hlt|Hge].
    - eexists. split; [by eapply download_below_min|by left].
    - destruct Hviol as [?|(m & Hm & Hgt)]; [lia|].
      eexists. split; [eapply download_above_max; eauto; lia|].
      right. by exists m. }
  split; [by exists reason|].
  cbn [download_loop]. by rewrite Hd.
Qed.

End Revalidation.

Lemma out_of_bounds_is_skipped_witness :
  (∃ reason,
     download_and_extract_plugin web_down ["srv"] 5000 None
       (JDict (sample_record 3000 "2024-03-14 9:05pm GMT")) empty_world =
     (Some (ValueError reason), empty_world) ∧
     (reason = "3000 installs < min_installs=5000" ∨
      ∃ m, None = Some m ∧ reason = "3000 installs > max_installs=" +:+ str_of_Z m)) ∧
  download_loop web_down ["srv"] 5000 None
    [JDict (sample_record 3000 "2024-03-14 9:05pm GMT"); JDict record_without_installs] empty_world =
  download_loop web_down ["srv"] 5000 None [JDict record_without_installs] empty_world.
Proof.
  apply (out_of_bounds_is_skipped web_down ["srv"] 5000 None
           (sample_record 3000 "2024-03-14 9:05pm GMT") (JStr "akismet") 3000).
  - reflexivity.
  - reflexivity.
  - left. lia.
Defined.



(** ** Enumeration *)

Lemma In_page_range (n page : Z) : In page (page_range n) ↔ 1 ≤ page ≤ n.
Proof.
  unfold page_range. rewrite in_map_iff. split.
  - intros (k & <- & Hk). apply in_seq in Hk. lia.
  - intros H. exists (Z.to_nat page). split; [lia|]. apply in_seq. lia.
Qed.

Lemma NoDup_page_range (n : Z) : List.NoDup (page_range n).
Proof.
  unfold page_range. apply Finite.Injective_map_NoDup; [|apply seq_NoDup].
  intros a b. lia.
Qed.

Lemma filter_plugins_keeps (min_installs : Z) (max_installs : option Z) (now_year : Z)
    (plugins result : list json) :
  filter_plugins min_installs max_installs now_year plugins = Ok result →
  ∀ r, In r result ↔
       In r plugins ∧ keep_plugin min_installs max_installs now_year r = Ok true.
Proof.
  revert result. induction plugins as [|p plugins IH]; intros result; simpl.
  - intros [= <-] r. simpl. tauto.
  - destruct (keep_plugin min_installs max_installs now_year p) as [keep|] eqn:Hk; simpl; [|done].
    destruct (filter_plugins min_installs max_installs now_year plugins) as [res|]; simpl; [|done].
    intros [= <-] r. specialize (IH res eq_refl r).
    destruct keep; simpl; rewrite IH; split.
    + intros [<-|[? ?]]; auto.
    + intros [[<-|?] ?]; auto.
    + intros [? ?]; auto.
    + intros [[<-|?] ?]; [congruence|auto].
Qed.

Section EnumerationFacts.
Variable bootstrap : option json.
Variable net : Z → option json.
Variable completion : list Z → list Z.
Variables (min_installs : Z) (max_installs max_pages : option Z) (now_year : Z).

Lemma process_page_fetch_failed (page : Z) :
  net page = None → process_page net min_installs max_installs now_year page = [].
Proof. unfold process_page. by intros ->. Qed.

Lemma process_page_accepted (page : Z) (r : json) :
  In r (process_page net min_installs max_installs now_year page) →
  keep_plugin min_installs max_installs now_year r = Ok true.
Proof.
  unfold process_page.
  destruct (py_get (get_plugins (net page)) "plugins" (JList [])) as [pl|]; simpl; [|done].
  destruct (py_iter pl) as [l|]; simpl; [|done].
  destruct (filter_plugins min_installs max_installs now_year l) as [res|] eqn:Hf; [|done].
  intros Hin. by apply (filter_plugins_keeps _ _ _ _ _ Hf).
Qed.

Lemma enumerate_bootstrapped (total : Z) :
  yields_page_count bootstrap total →
  enumerate bootstrap net completion min_installs max_installs max_pages now_year =
  (1 :: completion (page_range (page_bound max_pages total)),
   Enumerated (List.concat (map (process_page net min_installs max_installs now_year)
                                (completion (page_range (page_bound max_pages total)))))).
Proof.
  intros (d & info & pages & -> & Hinfo & Hpages & Htotal).
  unfold enumerate, pages_to_fetch. simpl.
  destruct d as [|kv d]; [done|]. cbn [py_not].
  rewrite bool_decide_eq_true_2 by (by rewrite Hinfo).
  rewrite Hinfo. simpl. rewrite Hpages. simpl. rewrite Htotal. simpl.
  reflexivity.
Qed.

Lemma enumerate_needs_bootstrap (valid_plugins : list json) :
  snd (enumerate bootstrap net completion min_installs max_installs max_pages now_year)
  = Enumerated valid_plugins →
  ∃ total, yields_page_count bootstrap total.
Proof.
  unfold enumerate.
  destruct (py_not (get_plugins bootstrap)); [done|].
  destruct (py_contains "info" (get_plugins bootstrap)) as [[]|]; [|done|done].
  unfold pages_to_fetch.
  destruct bootstrap as [[ | | | | |d]|]; try done. simpl.
  destruct (dict_get "info" d) as [info|] eqn:Hinfo; simpl; [|done].
  destruct (py_getitem info "pages") as [pages|] eqn:Hpages; simpl; [|done].
  destruct (py_int pages) as [total|] eqn:Htotal; simpl; [|done].
  intros _. exists total, d, info, pages. auto.
Qed.

(** C3: the enumeration produces its sequence exactly when the answer to
    the synchronous request for page 1 gives a total page count, and is
    given up as a whole otherwise; a task whose request fails, or whose
    processing raises, contributes the empty list, and every record a page
    task accepted is in the aggregated sequence, whatever happened to the
    other pages and in whatever order the tasks complete. *)
Theorem enumeration_fails_only_at_bootstrap :
  (∀ l, Permutation (completion l) l) →
  ((∃ valid_plugins,
      snd (enumerate bootstrap net completion min_installs max_installs max_pages now_year)
      = Enumerated valid_plugins) ↔
   ∃ total, yields_page_count bootstrap total) ∧
  (∀ page, net page = None →
     process_page net min_installs max_installs now_year page = []) ∧
  (∀ page e,
     (plugins ← py_get (get_plugins (net page)) "plugins" (JList []);
      plugins ← py_iter plugins;
      filter_plugins min_installs max_installs now_year plugins) = Raise e →
     process_page net min_installs max_installs now_year page = []) ∧
  (∀ total valid_plugins,
     yields_page_count bootstrap total →
     snd (enumerate bootstrap net completion min_installs max_installs max_pages now_year)
     = Enumerated valid_plugins →
     ∀ page r,
       1 ≤ page ≤ page_bound max_pages total →
       In r (process_page net min_installs max_installs now_year page) →
       In r valid_plugins).
Proof.
  intros Hperm. split; [|split; [|split]].
  - split.
    + intros [vs Hvs]. by apply (enumerate_needs_bootstrap vs).
    + intros [total Ht]. rewrite (enumerate_bootstrapped total Ht). by eexists.
  - apply process_page_fetch_failed.
  - intros page e He. unfold process_page. by rewrite He.
  - intros total vs Ht. rewrite (enumerate_bootstrapped total Ht). simpl.
    intros [= <-] page r Hpage Hr.
    apply in_concat. exists (process_page net min_installs max_installs now_year page).
    split; [|done]. apply in_map.
    apply (Permutation_in _ (Permutation_sym (Hperm _))).
    by apply In_page_range.
Qed.

(** C5, as amended: page 1 is always requested first, to learn the page
    count; the page tasks then request the pages from 1 to
    [min(total_pages, max_pages)] (to [total_pages] without [max_pages]),
    each of them once and no other page. So when that bound is at least 1
    the pages requested are exactly the pages from 1 to the bound. *)
Theorem pages_requested (total : Z) :
  (∀ l, Permutation (completion l) l) →
  yields_page_count bootstrap total →
  ∃ tasks,
    fst (enumerate bootstrap net completion min_installs max_installs max_pages now_year)
    = 1 :: tasks ∧
    Permutation tasks (page_range (page_bound max_pages total)) ∧
    List.NoDup tasks ∧
    (∀ page, In page tasks ↔ 1 ≤ page ≤ page_bound max_pages total) ∧
    (1 ≤ page_bound max_pages total →
     ∀ page,
       In page (fst (enumerate bootstrap net completion min_installs max_installs
                       max_pages now_year))
       ↔ 1 ≤ page ≤ page_bound max_pages total).
Proof.
  intros Hperm Ht. rewrite (enumerate_bootstrapped total Ht). simpl.
  exists (completion (page_range (page_bound max_pages total))).
  assert (∀ page, In page (completion (page_range (page_bound max_pages total)))
                  ↔ 1 ≤ page ≤ page_bound max_pages total) as Hin.
  { intros page. rewrite <- In_page_range. split; apply Permutation_in; [done|].
    by apply Permutation_sym. }
  split; [reflexivity|]. split; [apply Hperm|]. split.
  { apply (Permutation_NoDup (Permutation_sym (Hperm _))), NoDup_page_range. }
  split; [exact Hin|].
  intros Hb page. split.
  - intros [<-|H]; [lia|]. by apply Hin.
  - intros H. right. by apply Hin.
Qed.
End EnumerationFacts.

Lemma yields_first_page_of (total : Z) :
  yields_page_count (Some (first_page_of total)) total.
Proof. by exists [("info", JDict [("page", JInt 1); ("pages", JInt total)]); ("plugins", JList [])],
                 (JDict [("page", JInt 1); ("pages", JInt total)]), (JInt total). Defined.

Lemma enumeration_fails_only_at_bootstrap_witness :
  net_page2_down 2 = None ∧
  ∃ valid_plugins,
    snd (enumerate (Some (first_page_of 3)) net_page2_down (@rev Z) 1000 None None 2025)
    = Enumerated valid_plugins ∧
    In (JDict (sample_record 3000 "2024-03-14 9:05pm GMT")) valid_plugins ∧
    In (JDict (sample_record 4000 "2025-01-02 10:15am GMT")) valid_plugins.
Proof.
  destruct (enumeration_fails_only_at_bootstrap (Some (first_page_of 3)) net_page2_down (@rev Z)
              1000 None None 2025 (fun l => Permutation_sym (Permutation_rev l)))
    as (_ & _ & _ & Hall).
  split; [reflexivity|]. eexists. split; [reflexivity|]. split.
  - apply (Hall 3 _ (yields_first_page_of 3) eq_refl 1); [simpl; lia|].
    left. reflexivity.
  - apply (Hall 3 _ (yields_first_page_of 3) eq_refl 3); [simpl; lia|].
    left. reflexivity.
Defined.

Lemma pages_requested_witness :
  ∃ tasks,
    fst (enumerate (Some (first_page_of 3)) net_page2_down (@rev Z) 1000 None (Some 2) 2025)
    = 1 :: tasks ∧
    (∀ page, In page tasks ↔ 1 ≤ page ≤ 2) ∧
    ¬ In 3 (fst (enumerate (Some (first_page_of 3)) net_page2_down (@rev Z) 1000 None (Some 2) 2025)).
Proof.
  destruct (pages_requested (Some (first_page_of 3)) net_page2_down (@rev Z)
              1000 None (Some 2) 2025 3 (fun l => Permutation_sym (Permutation_rev l))
              (yields_first_page_of 3))
    as (tasks & Hfst & _ & _ & Hin & Hall).
  exists tasks. split; [exact Hfst|]. split; [exact Hin|].
  intros H3. apply Hall in H3; simpl in *; lia.
Defined.

(** C5 as it was stated fails when the bound is below 1: with 3 pages
    and [max_pages = 0] no page lies between 1 and the bound, and page 1 is
    requested all the same. *)
Lemma page_one_requested_beyond_bound :
  fst (enumerate (Some (first_page_of 3)) net_page2_down (@rev Z) 1000 None (Some 0) 2025) = [1] ∧
  ¬ (∀ page,
       In page (fst (enumerate (Some (first_page_of 3)) net_page2_down (@rev Z)
                       1000 None (Some 0) 2025))
       ↔ 1 ≤ page ≤ Z.min 3 0).
Proof.
  split; [reflexivity|].
  intros H. destruct (H 1) as [H1 _].
  assert (1 ≤ 1 ≤ Z.min 3 0) by (apply H1; left; reflexivity). lia.
Qed.

(** ** The file system operations *)

Lemma parent_cons (seg : string) (q : path) :
  q ≠ [] → parent (seg :: q) = seg :: parent q.
Proof. destruct q; [done|]. reflexivity. Qed.

Lemma mkdir_parents_File (q : path) (d : string) : mkdir_parents q (File d) = Raise OSError.
Proof. by destruct q. Qed.

Lemma write_file_File (q : path) (data d : string) : write_file q data (File d) = Raise OSError.
Proof. by destruct q. Qed.

Lemma rmtree_File (q : path) (d : string) : rmtree q (File d) = File d.
Proof. by destruct q. Qed.

Lemma mkdir_parents_empty (q : path) : mkdir_parents q (Dir ∅) = Ok (fresh_dirs q).
Proof.
  destruct q as [|seg q]; [done|]. simpl. by rewrite lookup_empty, insert_empty.
Qed.

Lemma mkdir_parents_Dir (q : path) (entries : gmap string node) (n : node) :
  mkdir_parents q (Dir entries) = Ok n → ∃ entries', n = Dir entries'.
Proof.
  destruct q as [|seg q]; cbn -[mkdir_parents].
  - intros [= <-]. eauto.
  - change (mkdir_parents (seg :: q) (Dir entries)) with
      (match entries !! seg with
       | None => Ok (Dir (<[seg := fresh_dirs q]> entries))
       | Some child => child' ← mkdir_parents q child; Ok (Dir (<[seg := child']> entries))
       end).
    destruct (entries !! seg) as [c|].
    + destruct (mkdir_parents q c); simpl; [|done]. intros [= <-]. eauto.
    + intros [= <-]. eauto.
Qed.

Lemma mkdir_parents_cons (seg : string) (q : path) (entries : gmap string node) :
  mkdir_parents (seg :: q) (Dir entries) =
  match entries !! seg with
  | None => Ok (Dir (<[seg := fresh_dirs q]> entries))
  | Some child => child' ← mkdir_parents q child; Ok (Dir (<[seg := child']> entries))
  end.
Proof. reflexivity. Qed.

Lemma write_file_one (seg data : string) (entries : gmap string node) :
  write_file [seg] data (Dir entries) =
  match entries !! seg with
  | Some (Dir _) => Raise OSError
  | _ => Ok (Dir (<[seg := File data]> entries))
  end.
Proof. reflexivity. Qed.

Lemma write_file_cons (seg : string) (q : path) (data : string) (entries : gmap string node) :
  q ≠ [] →
  write_file (seg :: q) data (Dir entries) =
  match entries !! seg with
  | None => Raise OSError
  | Some child => child' ← write_file q data child; Ok (Dir (<[seg := child']> entries))
  end.
Proof. destruct q; [done|]. reflexivity. Qed.

Lemma rmtree_one (seg : string) (entries : gmap string node) :
  rmtree [seg] (Dir entries) =
  match entries !! seg with
  | Some (Dir _) => Dir (delete seg entries)
  | _ => Dir entries
  end.
Proof. reflexivity. Qed.

Lemma rmtree_cons (seg : string) (q : path) (entries : gmap string node) :
  q ≠ [] →
  rmtree (seg :: q) (Dir entries) =
  match entries !! seg with
  | None => Dir entries
  | Some child => Dir (<[seg := rmtree q child]> entries)
  end.
Proof. destruct q; [done|]. reflexivity. Qed.

Lemma write_file_Dir (q : path) (data : string) (entries : gmap string node) (n : node) :
  write_file q data (Dir entries) = Ok n → ∃ entries', n = Dir entries'.
Proof.
  destruct q as [|seg [|seg' q]]; [done| |].
  - rewrite write_file_one.
    destruct (entries !! seg) as [[]|]; try done; intros [= <-]; eauto.
  - rewrite write_file_cons by done.
    destruct (entries !! seg) as [c|]; [|done].
    destruct (write_file (seg' :: q) data c); simpl; [|done]. intros [= <-]. eauto.
Qed.

Lemma mkdir_parents_raises (q : path) (n : node) (e : exn) :
  mkdir_parents q n = Raise e → e = OSError.
Proof.
  revert n. induction q as [|seg q IH]; intros [d|entries]; try (simpl; congruence).
  rewrite mkdir_parents_cons.
  destruct (entries !! seg) as [c|]; [|done].
  destruct (mkdir_parents q c) eqn:Hc; simpl; [done|].
  intros [= <-]. by eapply IH.
Qed.

Lemma write_file_raises (q : path) (data : string) (n : node) (e : exn) :
  write_file q data n = Raise e → e = OSError.
Proof.
  revert n. induction q as [|seg q IH]; intros [d|entries]; try (simpl; congruence).
  destruct q as [|seg' q].
  - rewrite write_file_one. destruct (entries !! seg) as [[]|]; congruence.
  - rewrite write_file_cons by done.
    destruct (entries !! seg) as [c|]; [|congruence].
    destruct (write_file (seg' :: q) data c) eqn:Hc; simpl; [done|].
    intros [= <-]. by eapply IH.
Qed.

Lemma rmtree_Dir (p : path) (entries : gmap string node) :
  ∃ entries', rmtree p (Dir entries) = Dir entries'.
Proof.
  destruct p as [|seg [|seg' p]]; [by eexists| |].
  - rewrite rmtree_one. destruct (entries !! seg) as [[]|]; eauto.
  - rewrite rmtree_cons by done. destruct (entries !! seg); eauto.
Qed.

Lemma mkdir_parents_nil (entries : gmap string node) :
  mkdir_parents [] (Dir entries) = Ok (Dir entries).
Proof. reflexivity. Qed.

Lemma rmtree_nil (entries : gmap string node) : rmtree [] (Dir entries) = Dir ∅.
Proof. reflexivity. Qed.

(** From here on the three operations are used through their equations. *)
Arguments mkdir_parents : simpl never.
Arguments write_file : simpl never.
Arguments rmtree : simpl never.

(** ** Extraction, member by member *)

Lemma extract_member_unsafe (p : path) (m : ZipInfo) (n : node) :
  member_is_unsafe m = true → extract_member p m n = (None, n).
Proof. unfold extract_member. by intros ->. Qed.

Lemma extract_member_File (p : path) (m : ZipInfo) (d : string) :
  snd (extract_member p m (File d)) = File d.
Proof.
  unfold extract_member. rewrite mkdir_parents_File. by destruct (member_is_unsafe m).
Qed.

Lemma extract_member_raises (p : path) (m : ZipInfo) (n n' : node) (e : exn) :
  extract_member p m n = (Some e, n') → e = OSError.
Proof.
  unfold extract_member. destruct (member_is_unsafe m); [done|].
  destruct (mkdir_parents _ n) as [n1|e1] eqn:H1.
  - destruct (member_is_dir m); [done|].
    destruct (write_file _ _ n1) as [n2|e2] eqn:H2; [done|].
    intros [= <- _]. by eapply write_file_raises.
  - intros [= <- _]. by eapply mkdir_parents_raises.
Qed.

Lemma extract_member_Dir (p : path) (m : ZipInfo) (entries : gmap string node) :
  ∃ entries', snd (extract_member p m (Dir entries)) = Dir entries'.
Proof.
  unfold extract_member. destruct (member_is_unsafe m); [by eauto|].
  destruct (mkdir_parents _ (Dir entries)) as [n1|e1] eqn:H1; [|by eauto].
  apply mkdir_parents_Dir in H1 as H1'. destruct H1' as [e1 ->].
  destruct (member_is_dir m); [by eauto|].
  destruct (write_file _ _ (Dir e1)) as [n2|e2] eqn:H2; [|by eauto].
  apply write_file_Dir in H2 as [e2 ->]. by eauto.
Qed.

Lemma extract_members_File (p : path) (members : list ZipInfo) (d : string) :
  snd (extract_members p members (File d)) = File d.
Proof.
  induction members as [|m members IH]; [done|]. simpl.
  pose proof (extract_member_File p m d) as H.
  destruct (extract_member p m (File d)) as [[e|] n']; simpl in H; subst n'; done.
Qed.

Lemma extract_members_Dir (p : path) (members : list ZipInfo) (entries : gmap string node) :
  ∃ entries', snd (extract_members p members (Dir entries)) = Dir entries'.
Proof.
  revert entries. induction members as [|m members IH]; intros entries; [by eauto|]. simpl.
  destruct (extract_member_Dir p m entries) as [e' H].
  destruct (extract_member p m (Dir entries)) as [[e|] n']; simpl in H; subst n'; [by eauto|].
  apply IH.
Qed.

Lemma extract_members_app (p : path) (before after : list ZipInfo) (n : node) :
  extract_members p (before ++ after) n =
  match extract_members p before n with
  | (Some e, n') => (Some e, n')
  | (None, n') => extract_members p after n'
  end.
Proof.
  revert n. induction before as [|m before IH]; intros n; [done|]. simpl.
  destruct (extract_member p m n) as [[e|] n']; [done|]. apply IH.
Qed.

Lemma extract_members_unsafe (p : path) (members : list ZipInfo) (n : node) :
  forallb member_is_unsafe members = true →
  extract_members p members n = (None, n).
Proof.
  induction members as [|m members IH]; [done|]. simpl.
  intros [Hm Hall]%andb_true_iff. rewrite (extract_member_unsafe _ _ _ Hm). by apply IH.
Qed.

Lemma extract_members_skip_unsafe (p : path) (members : list ZipInfo) (n : node) :
  extract_members p members n =
  extract_members p (List.filter (fun m => negb (member_is_unsafe m)) members) n.
Proof.
  revert n. induction members as [|m members IH]; intros n; [done|]. simpl.
  destruct (member_is_unsafe m) eqn:Hm; simpl.
  - rewrite (extract_member_unsafe _ _ _ Hm). apply IH.
  - destruct (extract_member p m n) as [[e|] n']; [done|]. apply IH.
Qed.

(** ** Extraction below a directory acts on one entry of it *)

Lemma extract_member_lift (seg : string) (p : path) (m : ZipInfo)
    (entries : gmap string node) (c : node) :
  p ≠ [] → entries !! seg = Some c →
  extract_member (seg :: p) m (Dir entries) =
  (fst (extract_member p m c), Dir (<[seg := snd (extract_member p m c)]> entries)).
Proof.
  intros Hp Hc. unfold extract_member.
  destruct (member_is_unsafe m); [by rewrite insert_id|].
  assert (p ++ parts (filename m) ≠ []) as Hq by (by destruct p).
  change ((seg :: p) ++ parts (filename m)) with (seg :: (p ++ parts (filename m))).
  rewrite (parent_cons _ _ Hq), mkdir_parents_cons, Hc.
  destruct (mkdir_parents _ c) as [c1|e1]; simpl; [|by rewrite insert_id].
  destruct (member_is_dir m); [done|].
  rewrite (write_file_cons _ _ _ _ Hq), lookup_insert_eq.
  destruct (write_file _ _ c1) as [c2|e2]; simpl; [|done].
  by rewrite insert_insert_eq.
Qed.

Lemma extract_member_lift_fresh (seg : string) (p : path) (m : ZipInfo)
    (entries : gmap string node) :
  p ≠ [] → entries !! seg = None → member_is_unsafe m = false →
  extract_member (seg :: p) m (Dir entries) =
  (fst (extract_member p m (Dir ∅)), Dir (<[seg := snd (extract_member p m (Dir ∅))]> entries)).
Proof.
  intros Hp Hc Hm. unfold extract_member. rewrite Hm.
  assert (p ++ parts (filename m) ≠ []) as Hq by (by destruct p).
  change ((seg :: p) ++ parts (filename m)) with (seg :: (p ++ parts (filename m))).
  rewrite (parent_cons _ _ Hq), mkdir_parents_cons, Hc, mkdir_parents_empty.
  destruct (member_is_dir m); [done|].
  rewrite (write_file_cons _ _ _ _ Hq), lookup_insert_eq.
  destruct (write_file _ _ _) as [c2|e2]; simpl; [|done].
  by rewrite insert_insert_eq.
Qed.

Lemma extract_members_lift (seg : string) (p : path) (members : list ZipInfo)
    (entries : gmap string node) (c : node) :
  p ≠ [] → entries !! seg = Some c →
  extract_members (seg :: p) members (Dir entries) =
  (fst (extract_members p members c), Dir (<[seg := snd (extract_members p members c)]> entries)).
Proof.
  intros Hp. revert entries c. induction members as [|m members IH]; intros entries c Hc.
  - simpl. by rewrite insert_id.
  - cbn [extract_members]. rewrite (extract_member_lift _ _ _ _ _ Hp Hc).
    destruct (extract_member p m c) as [[e|] c']; simpl; [done|].
    rewrite (IH _ c') by apply lookup_insert_eq.
    by rewrite insert_insert_eq.
Qed.

Lemma extract_members_lift_fresh (seg : string) (p : path) (members : list ZipInfo)
    (entries : gmap string node) :
  p ≠ [] → entries !! seg = None →
  extract_members (seg :: p) members (Dir entries) =
  if forallb member_is_unsafe members then (None, Dir entries)
  else (fst (extract_members p members (Dir ∅)),
        Dir (<[seg := snd (extract_members p members (Dir ∅))]> entries)).
Proof.
  intros Hp Hc. induction members as [|m members IH]; [done|].
  cbn [extract_members forallb].
  destruct (member_is_unsafe m) eqn:Hm; cbn [andb].
  - rewrite !(extract_member_unsafe _ _ _ Hm). apply IH.
  - rewrite (extract_member_lift_fresh _ _ _ _ Hp Hc Hm).
    destruct (extract_member p m (Dir ∅)) as [[e|] c']; simpl; [done|].
    rewrite (extract_members_lift _ _ _ _ c' Hp) by apply lookup_insert_eq.
    by rewrite insert_insert_eq.
Qed.

(** ** Extraction into an entry of a directory *)

Lemma extract_member_slot (seg : string) (m : ZipInfo) (entries : gmap string node) :
  extract_member [seg] m (Dir entries) =
  (fst (slot_member m (entries !! seg)),
   Dir (partial_alter (fun _ => snd (slot_member m (entries !! seg))) seg entries)).
Proof.
  unfold extract_member, slot_member.
  destruct (member_is_unsafe m); [cbn [fst snd]; by rewrite partial_alter_self|].
  destruct (parts (filename m)) as [|s q] eqn:Hparts.
  - change ([seg] ++ []) with [seg]. change (parent [seg]) with (@nil string).
    rewrite mkdir_parents_nil.
    destruct (member_is_dir m); [cbn [fst snd]; by rewrite partial_alter_self|].
    rewrite write_file_one.
    destruct (entries !! seg) as [[d|e]|] eqn:Hc; cbn [fst snd]; try done.
    by rewrite <- Hc, partial_alter_self.
  - change ([seg] ++ s :: q) with (seg :: s :: q).
    rewrite (parent_cons seg (s :: q)) by done.
    rewrite mkdir_parents_cons.
    destruct (entries !! seg) as [c|] eqn:Hc.
    + destruct (mkdir_parents (parent (s :: q)) c) as [c1|e1]; cbn [mbind result_bind fst snd].
      * destruct (member_is_dir m); [done|].
        rewrite write_file_cons by done. rewrite lookup_insert_eq.
        destruct (write_file (s :: q) (content m) c1) as [c2|e2];
          cbn [mbind result_bind fst snd]; [|done].
        by rewrite insert_insert_eq.
      * by rewrite <- Hc, partial_alter_self.
    + destruct (member_is_dir m); [done|].
      rewrite write_file_cons by done. rewrite lookup_insert_eq.
      destruct (write_file (s :: q) (content m) _) as [c2|e2];
        cbn [mbind result_bind fst snd]; [|done].
      by rewrite insert_insert_eq.
Qed.

Lemma extract_members_slot (seg : string) (members : list ZipInfo) (entries : gmap string node) :
  extract_members [seg] members (Dir entries) =
  (fst (slot_members members (entries !! seg)),
   Dir (partial_alter (fun _ => snd (slot_members members (entries !! seg))) seg entries)).
Proof.
  revert entries. induction members as [|m members IH]; intros entries.
  - simpl. by rewrite partial_alter_self.
  - cbn [extract_members slot_members]. rewrite extract_member_slot.
    destruct (slot_member m (entries !! seg)) as [[e|] slot']; cbn [fst snd]; [done|].
    rewrite IH, lookup_partial_alter_eq. cbn [fst snd].
    by rewrite partial_alter_partial_alter_eq.
Qed.

Lemma fresh_dirs_Dir (q : path) : ∃ entries, fresh_dirs q = Dir entries.
Proof. destruct q; simpl; eauto. Qed.

Lemma slot_member_File (m : ZipInfo) (d : string) :
  ∃ d', snd (slot_member m (Some (File d))) = Some (File d').
Proof.
  unfold slot_member. destruct (member_is_unsafe m); [by eauto|].
  destruct (parts (filename m)) as [|s q].
  - destruct (member_is_dir m); by eauto.
  - rewrite mkdir_parents_File. by eauto.
Qed.

Lemma slot_members_File (members : list ZipInfo) (d : string) :
  ∃ d', snd (slot_members members (Some (File d))) = Some (File d').
Proof.
  revert d. induction members as [|m members IH]; intros d; [by eauto|].
  cbn [slot_members]. destruct (slot_member_File m d) as [d1 H1].
  destruct (slot_member m (Some (File d))) as [[e|] slot']; cbn [snd] in H1; subst slot';
    [by eauto|apply IH].
Qed.

Lemma slot_member_Dir (m : ZipInfo) (entries : gmap string node) :
  ∃ entries', snd (slot_member m (Some (Dir entries))) = Some (Dir entries').
Proof.
  unfold slot_member. destruct (member_is_unsafe m); [by eauto|].
  destruct (parts (filename m)) as [|s q].
  - destruct (member_is_dir m); by eauto.
  - destruct (mkdir_parents _ (Dir entries)) as [c1|e1] eqn:H1; [|by eauto].
    apply mkdir_parents_Dir in H1 as [e1 ->].
    destruct (member_is_dir m); [by eauto|].
    destruct (write_file _ _ (Dir e1)) as [c2|e2] eqn:H2; [|by eauto].
    apply write_file_Dir in H2 as [e2 ->]. by eauto.
Qed.

Lemma slot_members_Dir (members : list ZipInfo) (entries : gmap string node) :
  ∃ entries', snd (slot_members members (Some (Dir entries))) = Some (Dir entries').
Proof.
  revert entries. induction members as [|m members IH]; intros entries; [by eauto|].
  cbn [slot_members]. destruct (slot_member_Dir m entries) as [e1 H1].
  destruct (slot_member m (Some (Dir entries))) as [[e|] slot']; cbn [snd] in H1; subst slot';
    [by eauto|apply IH].
Qed.

(** A file left in the entry is left there again by a second extraction. *)
Lemma slot_members_File_again (members : list ZipInfo) (d d' : string) :
  snd (slot_members members (Some (File d))) = Some (File d') →
  snd (slot_members members (Some (File d'))) = Some (File d').
Proof.
  revert d. induction members as [|m members IH]; intros d; [done|].
  cbn [slot_members]. unfold slot_member.
  destruct (member_is_unsafe m); [apply IH|].
  destruct (parts (filename m)) as [|s q].
  - destruct (member_is_dir m); [apply IH|done].
  - rewrite !mkdir_parents_File. cbn [snd]. by intros [= ->].
Qed.

Lemma slot_members_None_again (members : list ZipInfo) (d' : string) :
  snd (slot_members members None) = Some (File d') →
  snd (slot_members members (Some (File d'))) = Some (File d').
Proof.
  induction members as [|m members IH]; [done|].
  cbn [slot_members]. unfold slot_member.
  destruct (member_is_unsafe m); [apply IH|].
  destruct (parts (filename m)) as [|s q].
  - destruct (member_is_dir m); [apply IH|done].
  - destruct (fresh_dirs_Dir (parent (s :: q))) as [e0 ->].
    destruct (member_is_dir m).
    + destruct (slot_members_Dir members e0) as [e1 ->]. done.
    + destruct (write_file (s :: q) (content m) (Dir e0)) as [c2|e2] eqn:H2; [|done].
      apply write_file_Dir in H2 as [e2 ->].
      destruct (slot_members_Dir members e2) as [e3 ->]. done.
Qed.

Lemma slot_members_again (members : list ZipInfo) (slot : option node) :
  snd (slot_members members
         (slot_clear (snd (slot_members members (slot_clear slot))))) =
  snd (slot_members members (slot_clear slot)).
Proof.
  destruct slot as [[d|entries]|]; cbn [slot_clear].
  - destruct (slot_members_File members d) as [d' Hd]. rewrite Hd. cbn [slot_clear].
    by apply (slot_members_File_again members d).
  - destruct (snd (slot_members members None)) as [[d'|e']|] eqn:HX; cbn [slot_clear]; [|done..].
    by apply slot_members_None_again.
  - destruct (snd (slot_members members None)) as [[d'|e']|] eqn:HX; cbn [slot_clear]; [|done..].
    by apply slot_members_None_again.
Qed.

(** ** Removing the plugin directory *)

Lemma rmtree_empty (p : path) : rmtree p (Dir ∅) = Dir ∅.
Proof.
  destruct p as [|seg [|seg' p]]; [done| |].
  - by rewrite rmtree_one, lookup_empty.
  - by rewrite rmtree_cons, lookup_empty.
Qed.

Lemma rmtree_absent (p : path) (n : node) :
  path_exists p n = false → rmtree p n = n.
Proof.
  unfold path_exists. rewrite bool_decide_eq_false.
  revert n. induction p as [|seg p IH]; intros n Hn.
  - exfalso. apply Hn. by eexists.
  - destruct n as [d|entries]; [by rewrite rmtree_File|].
    cbn [lookup_path] in Hn.
    destruct p as [|seg' p].
    + rewrite rmtree_one. destruct (entries !! seg) as [c|]; [|done].
      exfalso. apply Hn. by eexists.
    + rewrite rmtree_cons by done.
      destruct (entries !! seg) as [c|] eqn:Hc; [|done].
      rewrite (IH c) by done. by rewrite insert_id.
Qed.

Lemma cleared_rmtree (p : path) (n : node) :
  (if path_exists p n then rmtree p n else n) = rmtree p n.
Proof. destruct (path_exists p n) eqn:H; [done|]. by rewrite rmtree_absent. Qed.

(** ** A second run leaves the tree of the first *)

Lemma unpack_slot (seg : string) (members : list ZipInfo) (entries : gmap string node) :
  snd (extract_members [seg] members (rmtree [seg] (Dir entries))) =
  Dir (partial_alter (fun _ => snd (slot_members members (slot_clear (entries !! seg))))
         seg entries).
Proof.
  rewrite rmtree_one.
  destruct (entries !! seg) as [[d|e]|] eqn:Hc; rewrite extract_members_slot; cbn [snd slot_clear].
  - by rewrite Hc.
  - by rewrite lookup_delete_eq, partial_alter_delete_eq.
  - by rewrite Hc.
Qed.

Lemma unpack_cons (seg : string) (p : path) (members : list ZipInfo)
    (entries : gmap string node) :
  p ≠ [] →
  snd (extract_members (seg :: p) members (rmtree (seg :: p) (Dir entries))) =
  match entries !! seg with
  | Some c => Dir (<[seg := snd (extract_members p members (rmtree p c))]> entries)
  | None =>
      if forallb member_is_unsafe members then Dir entries
      else Dir (<[seg := snd (extract_members p members (rmtree p (Dir ∅)))]> entries)
  end.
Proof.
  intros Hp. rewrite rmtree_cons by done.
  destruct (entries !! seg) as [c|] eqn:Hc.
  - rewrite (extract_members_lift _ _ _ _ (rmtree p c) Hp) by apply lookup_insert_eq.
    cbn [snd]. by rewrite insert_insert_eq.
  - rewrite (extract_members_lift_fresh _ _ _ _ Hp Hc), rmtree_empty.
    by destruct (forallb member_is_unsafe members).
Qed.

Lemma unpack_again (p : path) (members : list ZipInfo) (n : node) :
  snd (extract_members p members
         (rmtree p (snd (extract_members p members (rmtree p n))))) =
  snd (extract_members p members (rmtree p n)).
Proof.
  revert n. induction p as [|seg p IH]; intros [d|entries];
    try (by rewrite !rmtree_File, !extract_members_File, ?rmtree_File, ?extract_members_File).
  - rewrite rmtree_nil.
    destruct (extract_members_Dir [] members ∅) as [e' He]. rewrite He.
    by rewrite rmtree_nil, He.
  - destruct p as [|seg' p].
    + rewrite !unpack_slot, lookup_partial_alter_eq, slot_members_again.
      by rewrite partial_alter_partial_alter_eq.
    + assert (seg' :: p ≠ []) as Hp by done.
      rewrite (unpack_cons _ _ _ entries Hp).
      destruct (entries !! seg) as [c|] eqn:Hc.
      * rewrite (unpack_cons _ _ _ _ Hp), lookup_insert_eq, IH. by rewrite insert_insert_eq.
      * destruct (forallb member_is_unsafe members) eqn:Hall.
        -- by rewrite (unpack_cons _ _ _ _ Hp), Hc, Hall.
        -- rewrite (unpack_cons _ _ _ _ Hp), lookup_insert_eq, IH. by rewrite insert_insert_eq.
Qed.

(** ** What the operations do to the files of the tree *)

Lemma lookup_path_cons (seg : string) (x : path) (entries : gmap string node) :
  lookup_path (seg :: x) (Dir entries) = entries !! seg ≫= lookup_path x.
Proof. reflexivity. Qed.

Lemma lookup_path_File (x : path) (d : string) :
  x ≠ [] → lookup_path x (File d) = None.
Proof. by destruct x. Qed.

Lemma fresh_dirs_no_file (q x : path) (d : string) :
  lookup_path x (fresh_dirs q) ≠ Some (File d).
Proof.
  revert q. induction x as [|s x IH]; intros [|seg q]; simpl; try done.
  destruct (decide (seg = s)) as [->|Hne].
  - rewrite lookup_singleton_eq. simpl. apply IH.
  - by rewrite lookup_singleton_ne.
Qed.

Lemma fresh_dirs_lookup (a rest : path) :
  lookup_path a (fresh_dirs (a ++ rest)) = Some (fresh_dirs rest).
Proof.
  induction a as [|s a IH]; [done|]. simpl. rewrite lookup_singleton_eq. simpl. apply IH.
Qed.

Lemma mkdir_parents_files (q : path) (n n' : node) :
  mkdir_parents q n = Ok n' →
  ∀ x d, lookup_path x n' = Some (File d) ↔ lookup_path x n = Some (File d).
Proof.
  revert n n'. induction q as [|seg q IH]; intros [d0|entries] n'.
  - by rewrite mkdir_parents_File.
  - rewrite mkdir_parents_nil. by intros [= <-].
  - by rewrite mkdir_parents_File.
  - rewrite mkdir_parents_cons.
    destruct (entries !! seg) as [c|] eqn:Hc.
    + destruct (mkdir_parents q c) as [c'|] eqn:Hm; cbn [mbind result_bind]; [|done].
      intros [= <-] [|s x] d; [done|]. rewrite !lookup_path_cons.
      destruct (decide (seg = s)) as [<-|Hne].
      * rewrite lookup_insert_eq, Hc. simpl. by apply IH.
      * by rewrite lookup_insert_ne.
    + intros [= <-] [|s x] d; [done|]. rewrite !lookup_path_cons.
      destruct (decide (seg = s)) as [<-|Hne].
      * rewrite lookup_insert_eq, Hc. simpl. split; [|done].
        intros H. by apply fresh_dirs_no_file in H.
      * by rewrite lookup_insert_ne.
Qed.

Lemma mkdir_parents_dirs (q : path) (n n' : node) :
  mkdir_parents q n = Ok n' →
  ∀ a rest, q = a ++ rest → path_is_dir a n' = true.
Proof.
  unfold path_is_dir.
  revert n n'. induction q as [|seg q IH]; intros [d0|entries] n'.
  - by rewrite mkdir_parents_File.
  - rewrite mkdir_parents_nil. intros [= <-] a rest Hq.
    symmetry in Hq. apply List.app_eq_nil in Hq as [-> _]. done.
  - by rewrite mkdir_parents_File.
  - intros Hm a rest Hq.
    destruct a as [|s a].
    { apply mkdir_parents_Dir in Hm as [e' ->]. done. }
    injection Hq as <- ->.
    rewrite mkdir_parents_cons in Hm.
    destruct (entries !! seg) as [c|] eqn:Hc.
    + destruct (mkdir_parents (a ++ rest) c) as [c'|] eqn:Hm'; cbn [mbind result_bind] in Hm;
        [|done].
      injection Hm as <-. rewrite lookup_path_cons, lookup_insert_eq. simpl.
      by apply (IH c c' Hm' a rest).
    + injection Hm as <-. rewrite lookup_path_cons, lookup_insert_eq. simpl.
      rewrite fresh_dirs_lookup. by destruct (fresh_dirs_Dir rest) as [e ->].
Qed.

Lemma write_file_lookup (q : path) (data : string) (n n' : node) :
  write_file q data n = Ok n' → lookup_path q n' = Some (File data).
Proof.
  revert n n'. induction q as [|seg q IH]; intros [d0|entries] n';
    try (by rewrite ?write_file_File).
  destruct q as [|seg' q].
  - rewrite write_file_one.
    destruct (entries !! seg) as [[]|]; try done;
      intros [= <-]; by rewrite lookup_path_cons, lookup_insert_eq.
  - rewrite write_file_cons by done.
    destruct (entries !! seg) as [c|]; [|done].
    destruct (write_file (seg' :: q) data c) as [c'|] eqn:Hw; cbn [mbind result_bind]; [|done].
    intros [= <-]. rewrite lookup_path_cons, lookup_insert_eq. simpl. by apply (IH c).
Qed.

Lemma write_file_files (q : path) (data : string) (n n' : node) :
  write_file q data n = Ok n' →
  ∀ x d, lookup_path x n' = Some (File d) →
         (x = q ∧ d = data) ∨ lookup_path x n = Some (File d).
Proof.
  revert n n'. induction q as [|seg q IH]; intros [d0|entries] n';
    try (by rewrite ?write_file_File).
  destruct q as [|seg' q].
  - rewrite write_file_one.
    assert (∀ x d, lookup_path x (Dir (<[seg := File data]> entries)) = Some (File d) →
                   (x = [seg] ∧ d = data) ∨ lookup_path x (Dir entries) = Some (File d)) as H.
    { intros [|s x] d; [done|]. rewrite !lookup_path_cons.
      destruct (decide (seg = s)) as [<-|Hne].
      - rewrite lookup_insert_eq. simpl. destruct x; [|done]. intros [= <-]. by left.
      - rewrite lookup_insert_ne by done. by right. }
    destruct (entries !! seg) as [[]|]; try done; by intros [= <-].
  - rewrite write_file_cons by done.
    destruct (entries !! seg) as [c|] eqn:Hc; [|done].
    destruct (write_file (seg' :: q) data c) as [c'|] eqn:Hw; cbn [mbind result_bind]; [|done].
    intros [= <-] [|s x] d; [done|]. rewrite !lookup_path_cons.
    destruct (decide (seg = s)) as [<-|Hne].
    + rewrite lookup_insert_eq, Hc. simpl. intros H.
      destruct (IH c c' Hw x d H) as [[-> ->]|H']; [by left|by right].
    + rewrite lookup_insert_ne by done. by right.
Qed.

Lemma path_is_dir_Dir (p : path) (n : node) :
  path_is_dir p n = true → ∃ entries, lookup_path p n = Some (Dir entries).
Proof. unfold path_is_dir. destruct (lookup_path p n) as [[]|]; try done. eauto. Qed.

Lemma rmtree_dir_gone (p : path) (n : node) :
  path_is_dir p n = true →
  ∀ x, x ≠ [] → lookup_path (p ++ x) (rmtree p n) = None.
Proof.
  revert n. induction p as [|seg p IH]; intros n Hd x Hx.
  - apply path_is_dir_Dir in Hd as [e [= ->]]. rewrite rmtree_nil.
    destruct x as [|s x]; [done|]. simpl. by rewrite lookup_empty.
  - apply path_is_dir_Dir in Hd as [e He].
    destruct n as [d0|entries]; [done|]. rewrite lookup_path_cons in He.
    destruct (entries !! seg) as [c|] eqn:Hc; [|done]. simpl in He.
    destruct p as [|seg' p].
    + injection He as ->. rewrite rmtree_one, Hc.
      change ([seg] ++ x) with (seg :: x). by rewrite lookup_path_cons, lookup_delete_eq.
    + rewrite rmtree_cons, Hc by done.
      change ((seg :: seg' :: p) ++ x) with (seg :: ((seg' :: p) ++ x)).
      rewrite lookup_path_cons, lookup_insert_eq. simpl.
      apply IH; [|done]. unfold path_is_dir. by rewrite He.
Qed.

Lemma rmtree_dir_self (p : path) (n : node) (d : string) :
  path_is_dir p n = true → lookup_path p (rmtree p n) ≠ Some (File d).
Proof.
  revert n. induction p as [|seg p IH]; intros n Hd.
  - apply path_is_dir_Dir in Hd as [e [= ->]]. by rewrite rmtree_nil.
  - apply path_is_dir_Dir in Hd as [e He].
    destruct n as [d0|entries]; [done|]. rewrite lookup_path_cons in He.
    destruct (entries !! seg) as [c|] eqn:Hc; [|done]. simpl in He.
    destruct p as [|seg' p].
    + injection He as ->. by rewrite rmtree_one, Hc, lookup_path_cons, lookup_delete_eq.
    + rewrite rmtree_cons, Hc by done.
      rewrite lookup_path_cons, lookup_insert_eq. simpl.
      apply IH. unfold path_is_dir. by rewrite He.
Qed.

Lemma rmtree_dir_no_file (p : path) (n : node) :
  path_is_dir p n = true →
  ∀ x d, lookup_path (p ++ x) (rmtree p n) ≠ Some (File d).
Proof.
  intros Hd x d. destruct x as [|s x].
  - rewrite List.app_nil_r. by apply rmtree_dir_self.
  - by rewrite (rmtree_dir_gone p n Hd (s :: x)).
Qed.

Lemma rmtree_file_stays (p : path) (n : node) (d : string) :
  lookup_path p n = Some (File d) → rmtree p n = n.
Proof.
  revert n. induction p as [|seg p IH]; intros n Hn.
  - injection Hn as ->. done.
  - destruct n as [d0|entries]; [done|]. rewrite lookup_path_cons in Hn.
    destruct (entries !! seg) as [c|] eqn:Hc; [|done]. simpl in Hn.
    destruct p as [|seg' p].
    + injection Hn as ->. by rewrite rmtree_one, Hc.
    + rewrite rmtree_cons, Hc by done. rewrite (IH c Hn). by rewrite insert_id.
Qed.

(** ** The download of one plugin, as far as the file system goes *)

Section DownloadFacts.
Variable web : json → response.
Variable download_dir : path.
Variables (min_installs : Z) (max_installs : option Z).

Lemma download_unpacks (record : list (string * json)) (slug : string) (installs : Z) (w : world) :
  dict_get "slug" record = Some (JStr slug) →
  py_int (default (JInt 0) (dict_get "active_installs" record)) = Ok installs →
  within_bounds min_installs max_installs installs →
  download_and_extract_plugin web download_dir min_installs max_installs (JDict record) w =
  (None,
   mk_world (unpacked (plugin_dir download_dir slug)
               (web (default JNull (dict_get "download_link" record))) (fs w))
            (sent w ++ [ArchiveRequest (default JNull (dict_get "download_link" record))])).
Proof.
  intros Hs Hi [Hmin Hmax]. unfold download_and_extract_plugin. simpl. rewrite Hs.
  rewrite (py_lt_int _ _ _ Hi).
  replace (installs <? min_installs) with false by (symmetry; apply Z.ltb_ge; lia).
  assert (match max_installs with
          | Some m => py_gt (default (JInt 0) (dict_get "active_installs" record)) m
          | None => Ok false end = Ok false) as ->.
  { destruct Hmax as [->|(m & -> & Hm)]; [done|].
    rewrite (py_gt_int _ _ _ Hi). f_equal. rewrite Z.gtb_ltb. apply Z.ltb_ge. lia. }
  unfold unpacked, plugin_dir.
  by destruct (web _).
Qed.

(** Whether a call gets as far as the download depends on the plugin
    only, not on the world. *)
Lemma download_shape (plugin : json) :
  (∀ w, snd (download_and_extract_plugin web download_dir min_installs max_installs plugin w) = w) ∨
  (∃ p link, ∀ w,
     snd (download_and_extract_plugin web download_dir min_installs max_installs plugin w) =
     mk_world (unpacked p (web link) (fs w)) (sent w ++ [ArchiveRequest link])).
Proof.
  unfold download_and_extract_plugin.
  destruct (py_getitem plugin "slug") as [slug|]; [|by left].
  destruct (py_get plugin "active_installs" (JInt 0)) as [installs|]; [|by left].
  destruct (py_lt installs min_installs) as [[]|]; [by left| |by left].
  destruct (match max_installs with Some m => py_gt installs m | None => Ok false end)
    as [[]|]; [by left| |by left].
  destruct (py_get plugin "download_link" JNull) as [link|]; [|by left].
  destruct (plugin_path_of download_dir slug) as [p|]; [|by left].
  right. exists p, link. intros w. unfold unpacked. by destruct (web link).
Qed.

Lemma unpacked_again (p : path) (answer : response) (n : node) :
  unpacked p answer (unpacked p answer n) = unpacked p answer n.
Proof.
  unfold unpacked. rewrite !cleared_rmtree.
  destruct answer as [| |members].
  - apply (unpack_again p [] n).
  - apply (unpack_again p [] n).
  - apply unpack_again.
Qed.

(** The files below the plugin directory come from the members. *)
Lemma extract_members_files (p : path) (members : list ZipInfo) (n : node) :
  (∀ x d, lookup_path (p ++ x) n ≠ Some (File d)) →
  ∀ x d, lookup_path (p ++ x) (snd (extract_members p members n)) = Some (File d) →
         ∃ m, In m members ∧ member_is_unsafe m = false ∧ member_is_dir m = false ∧
              parts (filename m) = x ∧ content m = d.
Proof.
  assert (∀ done n,
    (∀ x d, lookup_path (p ++ x) n = Some (File d) →
            ∃ m, In m done ∧ member_is_unsafe m = false ∧ member_is_dir m = false ∧
                 parts (filename m) = x ∧ content m = d) →
    ∀ x d, lookup_path (p ++ x) (snd (extract_members p members n)) = Some (File d) →
           ∃ m, In m (done ++ members) ∧ member_is_unsafe m = false ∧ member_is_dir m = false ∧
                parts (filename m) = x ∧ content m = d) as Hgen.
  { induction members as [|m members IH]; intros done n0 Hinv x d.
    - simpl. rewrite List.app_nil_r. apply Hinv.
    - replace (done ++ m :: members) with ((done ++ [m]) ++ members)
        by (by rewrite <- List.app_assoc).
      cbn [extract_members].
      assert (∀ n1,
        (∀ x d, lookup_path (p ++ x) n1 = Some (File d) →
                ∃ m0, In m0 (done ++ [m]) ∧ member_is_unsafe m0 = false ∧
                      member_is_dir m0 = false ∧ parts (filename m0) = x ∧ content m0 = d) →
        snd (extract_member p m n0) = n1 →
        lookup_path (p ++ x)
          (snd (match extract_member p m n0 with
                | (Some e, fs') => (Some e, fs')
                | (None, fs') => extract_members p members fs'
                end)) = Some (File d) →
        ∃ m0, In m0 ((done ++ [m]) ++ members) ∧ member_is_unsafe m0 = false ∧
              member_is_dir m0 = false ∧ parts (filename m0) = x ∧ content m0 = d) as Hstep.
      { intros n1 Hinv1 Hn1.
        destruct (extract_member p m n0) as [[e|] n']; cbn [snd] in *; subst n'.
        - intros H. destruct (Hinv1 x d H) as (m0 & Hin & ?).
          exists m0. split; [|done]. apply in_or_app. by left.
        - by apply IH. }
      apply (Hstep (snd (extract_member p m n0))); [|done].
      intros x' d'. unfold extract_member.
      assert (∀ m0, In m0 done → In m0 (done ++ [m])) as Hdone
        by (intros; apply in_or_app; by left).
      destruct (member_is_unsafe m) eqn:Hm; cbn [snd].
      { intros H. destruct (Hinv x' d' H) as (m0 & Hin & ?). exists m0. by auto. }
      destruct (mkdir_parents _ n0) as [n1|e1] eqn:H1; cbn [snd].
      2:{ intros H. destruct (Hinv x' d' H) as (m0 & Hin & ?). exists m0. by auto. }
      destruct (member_is_dir m) eqn:Hd; cbn [snd].
      { intros H. apply (mkdir_parents_files _ _ _ H1) in H.
        destruct (Hinv x' d' H) as (m0 & Hin & ?). exists m0. by auto. }
      destruct (write_file _ _ n1) as [n2|e2] eqn:H2; cbn [snd].
      2:{ intros H. apply (mkdir_parents_files _ _ _ H1) in H.
          destruct (Hinv x' d' H) as (m0 & Hin & ?). exists m0. by auto. }
      intros H. destruct (write_file_files _ _ _ _ H2 _ _ H) as [[Hx ->]|H'].
      + apply app_inv_head in Hx. exists m. repeat split; try done.
        apply in_or_app. right. by left.
      + apply (mkdir_parents_files _ _ _ H1) in H'.
        destruct (Hinv x' d' H') as (m0 & Hin & ?). exists m0. by auto. }
  intros Hnone x d H. apply (Hgen [] n); [|done].
  intros x' d' H'. by apply Hnone in H'.
Qed.
End DownloadFacts.

(** ** Path traversal *)

Lemma has_dotdot_In (p : path) : has_dotdot p = true ↔ In ".." p.
Proof.
  unfold has_dotdot. rewrite existsb_exists. split.
  - intros (seg & Hin & Heq). apply String.eqb_eq in Heq. by subst.
  - intros Hin. exists "..". split; [done|]. by apply String.eqb_eq.
Qed.

Lemma is_absolute_slash (s : string) : is_absolute s = true ↔ ∃ s', s = String "/" s'.
Proof.
  unfold is_absolute. destruct s as [|c s]; [split; [done|by intros [? ?]]|].
  cbn [String.prefix]. destruct (ascii_dec "/" c) as [<-|Hne].
  - split; [by eauto|]. intros _. by destruct s.
  - split; [done|]. intros [s' [= ? ?]]. by subst.
Qed.



(** ** Failures while one plugin is extracted *)

Section Failures.
Variable web : json → response.
Variable download_dir : path.
Variables (min_installs : Z) (max_installs : option Z).

End Failures.


(** ** What a member's extraction creates *)

(** C8, as amended: a member that is extracted without an exception has
    the parent of its resolved path created first, with all the
    directories above it. A directory member stops there: the tree is the
    one [mkdir] left, its files are the files there were. For a file
    member every proper ancestor of the resolved path is a directory when
    the content is written, and the file then holds the content. *)
Theorem extraction_creates_parents
    (plugin_path : path) (member : ZipInfo) (fs0 fs' : node) :
  member_is_unsafe member = false →
  extract_member plugin_path member fs0 = (None, fs') →
  ∃ fs1,
    mkdir_parents (parent (plugin_path ++ parts (filename member))) fs0 = Ok fs1 ∧
    path_is_dir (parent (plugin_path ++ parts (filename member))) fs1 = true ∧
    (∀ a rest, rest ≠ [] → plugin_path ++ parts (filename member) = a ++ rest →
               path_is_dir a fs1 = true) ∧
    (member_is_dir member = true →
     fs' = fs1 ∧
     ∀ x d, lookup_path x fs' = Some (File d) ↔ lookup_path x fs0 = Some (File d)) ∧
    (member_is_dir member = false →
     write_file (plugin_path ++ parts (filename member)) (content member) fs1 = Ok fs' ∧
     lookup_path (plugin_path ++ parts (filename member)) fs' = Some (File (content member))).
Proof.
  intros Hsafe. unfold extract_member. rewrite Hsafe.
  destruct (mkdir_parents _ fs0) as [fs1|e1] eqn:H1; [|done].
  intros Hstep. exists fs1. split; [done|]. split; [|split; [|split]].
  - apply (mkdir_parents_dirs _ _ _ H1 _ []). by rewrite List.app_nil_r.
  - intros a rest Hrest Hdest.
    apply (mkdir_parents_dirs _ _ _ H1 a (removelast rest)).
    unfold parent. rewrite Hdest. by apply removelast_app.
  - intros Hd. rewrite Hd in Hstep. injection Hstep as <-.
    split; [done|]. apply (mkdir_parents_files _ _ _ H1).
  - intros Hd. rewrite Hd in Hstep.
    destruct (write_file _ _ fs1) as [fs2|e2] eqn:H2; [|done].
    injection Hstep as <-. split; [done|]. by eapply write_file_lookup.
Qed.

Lemma extraction_creates_parents_witness :
  ∃ fs1,
    mkdir_parents ["srv"; "plugins"; "bar"; "bar"; "inc"] stale_fs = Ok fs1 ∧
    path_is_dir ["srv"; "plugins"; "bar"; "bar"] fs1 = true ∧
    lookup_path ["srv"; "plugins"; "bar"; "bar"; "inc"; "util.php"]
      (snd (extract_member ["srv"; "plugins"; "bar"] (mk_member "bar/inc/util.php" "<?php //")
              stale_fs))
    = Some (File "<?php //").
Proof.
  destruct (extraction_creates_parents ["srv"; "plugins"; "bar"]
              (mk_member "bar/inc/util.php" "<?php //") stale_fs
              (snd (extract_member ["srv"; "plugins"; "bar"]
                      (mk_member "bar/inc/util.php" "<?php //") stale_fs)))
    as (fs1 & Hmk & _ & Hanc & _ & Hfile).
  - reflexivity.
  - vm_compute. reflexivity.
  - exists fs1. split; [exact Hmk|]. split.
    + apply (Hanc ["srv"; "plugins"; "bar"; "bar"] ["inc"; "util.php"]); [done|reflexivity].
    + apply Hfile. reflexivity.
Defined.

(** C8 as it was stated fails for a directory member: the archive with
    the single member [emptydir/] is extracted without an exception, the
    plugin directory is created, and [emptydir] is not. *)
Lemma directory_member_not_created :
  fst (extract_members ["srv"; "plugins"; "foo"] archive_empty_dir (Dir ∅)) = None ∧
  path_is_dir ["srv"; "plugins"; "foo"]
    (snd (extract_members ["srv"; "plugins"; "foo"] archive_empty_dir (Dir ∅))) = true ∧
  path_exists (["srv"; "plugins"; "foo"] ++ parts "emptydir/")
    (snd (extract_members ["srv"; "plugins"; "foo"] archive_empty_dir (Dir ∅))) = false.
Proof. vm_compute. auto. Qed.

(** ** Downloading a plugin again *)

Section Redownload.
Variable web : json → response.
Variable download_dir : path.
Variables (min_installs : Z) (max_installs : option Z).

(** C9: a second call for the same plugin, with the site answering as
    before, leaves the tree the first call left. When the plugin
    directory exists, it is removed with all it holds before the
    extraction starts (a file in its place stays, the failure of the
    removal is ignored), so that every file below the plugin directory
    after the call is a file member of the archive just extracted: no file
    of an earlier run is left. *)
Theorem redownload_replaces_directory :
  (∀ plugin w,
     fs (snd (download_and_extract_plugin web download_dir min_installs max_installs plugin
                (snd (download_and_extract_plugin web download_dir min_installs max_installs
                        plugin w)))) =
     fs (snd (download_and_extract_plugin web download_dir min_installs max_installs plugin w))) ∧
  (∀ p fs0 d, lookup_path p fs0 = Some (File d) → rmtree p fs0 = fs0) ∧
  (∀ record slug installs w,
     dict_get "slug" record = Some (JStr slug) →
     py_int (default (JInt 0) (dict_get "active_installs" record)) = Ok installs →
     within_bounds min_installs max_installs installs →
     path_is_dir (plugin_dir download_dir slug) (fs w) = true →
     fs (snd (download_and_extract_plugin web download_dir min_installs max_installs
                (JDict record) w)) =
     match web (default JNull (dict_get "download_link" record)) with
     | ZipFile infolist =>
         snd (extract_members (plugin_dir download_dir slug) infolist
                (rmtree (plugin_dir download_dir slug) (fs w)))
     | _ => rmtree (plugin_dir download_dir slug) (fs w)
     end ∧
     (∀ x, x ≠ [] →
           lookup_path (plugin_dir download_dir slug ++ x)
             (rmtree (plugin_dir download_dir slug) (fs w)) = None) ∧
     (∀ x d,
        lookup_path (plugin_dir download_dir slug ++ x)
          (fs (snd (download_and_extract_plugin web download_dir min_installs max_installs
                      (JDict record) w))) = Some (File d) →
        ∃ infolist member,
          web (default JNull (dict_get "download_link" record)) = ZipFile infolist ∧
          In member infolist ∧ member_is_unsafe member = false ∧
          member_is_dir member = false ∧
          parts (filename member) = x ∧ content member = d)).
Proof.
  split; [|split].
  - intros plugin w.
    destruct (download_shape web download_dir min_installs max_installs plugin)
      as [Hsame|(p & link & Hrun)].
    + by rewrite !Hsame.
    + rewrite !Hrun. cbn [fs]. apply unpacked_again.
  - apply rmtree_file_stays.
  - intros record slug installs w Hs Hi Hb Hdir.
    rewrite (download_unpacks web download_dir min_installs max_installs record slug installs w
               Hs Hi Hb).
    cbn [snd fs]. unfold unpacked. rewrite cleared_rmtree.
    split; [done|]. split; [by apply rmtree_dir_gone|].
    intros x d.
    destruct (web (default JNull (dict_get "download_link" record))) as [| |infolist].
    + intros H. by apply (rmtree_dir_no_file _ _ Hdir) in H.
    + intros H. by apply (rmtree_dir_no_file _ _ Hdir) in H.
    + intros H.
      destruct (extract_members_files _ _ _ (rmtree_dir_no_file _ _ Hdir) x d H)
        as (member & ?).
      by exists infolist, member.
Qed.
End Redownload.

Lemma redownload_replaces_directory_witness :
  lookup_path ["srv"; "plugins"; "bar"; "old.php"] (fs stale_world) = Some (File "old") ∧
  lookup_path ["srv"; "plugins"; "bar"; "old.php"]
    (fs (snd (download_and_extract_plugin (web_serving archive_usual) ["srv"] 0 None
                (JDict (plugin_record "bar")) stale_world))) = None ∧
  fs (snd (download_and_extract_plugin (web_serving archive_usual) ["srv"] 0 None
             (JDict (plugin_record "bar"))
             (snd (download_and_extract_plugin (web_serving archive_usual) ["srv"] 0 None
                     (JDict (plugin_record "bar")) stale_world)))) =
  fs (snd (download_and_extract_plugin (web_serving archive_usual) ["srv"] 0 None
             (JDict (plugin_record "bar")) stale_world)).
Proof.
  destruct (redownload_replaces_directory (web_serving archive_usual) ["srv"] 0 None)
    as (Hagain & _ & Hfresh).
  split; [reflexivity|]. split.
  - destruct (Hfresh (plugin_record "bar") "bar" 3000 stale_world) as (_ & _ & Hfiles).
    + reflexivity.
    + reflexivity.
    + split; [lia|by left].
    + reflexivity.
    + destruct (lookup_path ["srv"; "plugins"; "bar"; "old.php"] _) as [[d|e]|] eqn:Hl;
        [|vm_compute in Hl; discriminate|reflexivity].
      destruct (Hfiles ["old.php"] d Hl) as (infolist & member & [= <-] & Hin & _ & _ & Hparts & _).
      destruct Hin as [<-|[<-|[<-|[]]]]; vm_compute in Hparts; discriminate.
  - apply Hagain.
Defined.

(** ** The cache: strings *)

Lemma append_cons (x : ascii) (a b : string) : String x a +:+ b = String x (a +:+ b).
Proof. reflexivity. Qed.

Lemma append_assoc (a b c : string) : (a +:+ b) +:+ c = a +:+ (b +:+ c).
Proof. induction a as [|x a IH]; [done|]. rewrite !append_cons. by f_equal. Qed.

Lemma append_nil_r (a : string) : a +:+ "" = a.
Proof. induction a as [|x a IH]; [done|]. rewrite append_cons. by f_equal. Qed.

Lemma length_append (a b : string) :
  String.length (a +:+ b) = (String.length a + String.length b)%nat.
Proof.
  induction a as [|x a IH]; [done|]. rewrite append_cons. cbn [String.length]. by rewrite IH.
Qed.

(** One character of the encoder is read back as that character. *)
Lemma scanstring_escape (c : ascii) (tail : string) :
  scanstring (escape c +:+ tail) =
  r ← scanstring tail; Some (String c (fst r), snd r).
Proof.
  destruct c as [[] [] [] [] [] [] [] []]; reflexivity.
Qed.

Lemma scanstring_encode_chars (s rest : string) :
  scanstring (encode_chars s +:+ String dquote rest) = Some (s, rest).
Proof.
  induction s as [|c s IH]; [done|].
  cbn [encode_chars]. rewrite append_assoc, scanstring_escape, IH. done.
Qed.

Lemma encode_str_append (s rest : string) :
  encode_str s +:+ rest = String dquote (encode_chars s +:+ String dquote rest).
Proof. unfold encode_str. by rewrite append_cons, append_assoc. Qed.

(** ** The cache: integers *)

Lemma scan_digits_stop (rest : string) :
  ends_value rest → scan_digits rest = (Decimal.Nil, rest).
Proof.
  destruct rest as [|c r]; [done|]. intros [->| ->]; cbn [scan_digits]; reflexivity.
Qed.

Lemma starts_fraction_stop (rest : string) :
  ends_value rest → starts_fraction rest = false.
Proof. destruct rest as [|c r]; [done|]. by intros [->| ->]. Qed.

Lemma scan_digits_uint (u : Decimal.uint) (rest : string) :
  ends_value rest →
  scan_digits (NilEmpty.string_of_uint u +:+ rest) = (u, rest).
Proof.
  intros Hrest. induction u as [|u IH|u IH|u IH|u IH|u IH|u IH|u IH|u IH|u IH|u IH];
    [by apply scan_digits_stop|..];
    cbn [NilEmpty.string_of_uint]; rewrite append_cons; cbn [scan_digits]; by rewrite IH.
Qed.

Lemma nzhead_no_zero (u u' : Decimal.uint) : Decimal.nzhead u ≠ Decimal.D0 u'.
Proof. induction u; simpl; congruence. Qed.

(** The decimal digits of a positive number do not start with 0. *)
Lemma to_uint_head (p : positive) :
  match Pos.to_uint p with
  | Decimal.Nil | Decimal.D0 _ => False
  | _ => True
  end.
Proof.
  pose proof (DecimalPos.Unsigned.to_uint_nonnil p) as Hnil.
  pose proof (DecimalPos.Unsigned.to_uint_nonzero p) as Hzero.
  assert (Decimal.unorm (Pos.to_uint p) = Pos.to_uint p) as Hnorm.
  { rewrite <- DecimalPos.Unsigned.to_of, DecimalPos.Unsigned.of_to. reflexivity. }
  destruct (Pos.to_uint p) as [|u|u|u|u|u|u|u|u|u|u] eqn:Hp; try done.
  unfold Decimal.unorm in Hnorm. cbn [Decimal.nzhead] in Hnorm.
  destruct (Decimal.nzhead u) eqn:Hu; try congruence.
  by apply nzhead_no_zero in Hu.
Qed.

Lemma scan_unsigned_uint (u : Decimal.uint) (rest : string) :
  match u with
  | Decimal.Nil | Decimal.D0 _ => False
  | _ => True
  end →
  ends_value rest →
  scan_unsigned (NilEmpty.string_of_uint u +:+ rest) = Some (u, rest).
Proof.
  intros Hu Hrest. pose proof (scan_digits_uint u rest Hrest) as Hd.
  destruct u; try done;
    cbn [NilEmpty.string_of_uint] in *; rewrite append_cons in *;
    unfold scan_unsigned; cbn [N_of_ascii N.eqb Pos.eqb]; by rewrite Hd.
Qed.

Lemma scan_number_plain (c : ascii) (s : string) (u : Decimal.uint) (rest : string) :
  (N_of_ascii c =? 45)%N = false →
  scan_unsigned (String c s) = Some (u, rest) →
  starts_fraction rest = false →
  scan_number (String c s) = Some (JInt (Z.of_int (Decimal.Pos u)), rest).
Proof.
  intros Hc Hu Hrest. unfold scan_number. rewrite Hc, Hu.
  cbn [mbind option_bind snd fst]. by rewrite Hrest.
Qed.

Lemma scan_number_minus (s : string) (u : Decimal.uint) (rest : string) :
  scan_unsigned s = Some (u, rest) →
  starts_fraction rest = false →
  scan_number (String "-" s) = Some (JInt (Z.of_int (Decimal.Neg u)), rest).
Proof.
  intros Hu Hrest. unfold scan_number.
  change (N_of_ascii "-" =? 45)%N with true. cbv iota. rewrite Hu.
  cbn [mbind option_bind snd fst]. by rewrite Hrest.
Qed.

Lemma string_of_uint_nonnil (u : Decimal.uint) :
  u ≠ Decimal.Nil → NilZero.string_of_uint u = NilEmpty.string_of_uint u.
Proof. by destruct u. Qed.

Lemma scan_number_int (n : Z) (rest : string) :
  ends_value rest →
  scan_number (str_of_Z n +:+ rest) = Some (JInt n, rest).
Proof.
  intros Hrest. pose proof (starts_fraction_stop rest Hrest) as Hfrac.
  unfold str_of_Z. rewrite <- (DecimalZ.of_to n) at 2.
  destruct n as [|p|p]; cbn [Z.to_int NilZero.string_of_int].
  - change (scan_number (String "0" rest) =
            Some (JInt (Z.of_int (Decimal.Pos (Decimal.D0 Decimal.Nil))), rest)).
    by apply scan_number_plain.
  - pose proof (to_uint_head p) as Hhead.
    pose proof (scan_unsigned_uint (Pos.to_uint p) rest Hhead Hrest) as Hscan.
    rewrite string_of_uint_nonnil by apply DecimalPos.Unsigned.to_uint_nonnil.
    destruct (Pos.to_uint p) as [|u|u|u|u|u|u|u|u|u|u] eqn:Hp; try done;
      cbn [NilEmpty.string_of_uint] in *; rewrite append_cons in *;
      by apply scan_number_plain.
  - pose proof (to_uint_head p) as Hhead.
    pose proof (scan_unsigned_uint (Pos.to_uint p) rest Hhead Hrest) as Hscan.
    rewrite string_of_uint_nonnil by apply DecimalPos.Unsigned.to_uint_nonnil.
    rewrite append_cons. by apply scan_number_minus.
Qed.

(** ** The cache: white space and the first character of a value *)

Lemma skip_ws_head (c : ascii) (s : string) :
  is_ws c = false → skip_ws (String c s) = String c s.
Proof. intros H. cbn [skip_ws]. by rewrite H. Qed.

Lemma skip_ws_spaces (n : nat) (s : string) : skip_ws (spaces n +:+ s) = skip_ws s.
Proof.
  induction n as [|n IH]; [done|].
  cbn [spaces]. rewrite append_cons. cbn [skip_ws].
  change (is_ws " ") with true. exact IH.
Qed.

Lemma skip_ws_indent (level : nat) (s : string) :
  skip_ws (newline_indent level +:+ s) = skip_ws s.
Proof.
  unfold newline_indent. rewrite append_cons. cbn [skip_ws].
  change (is_ws newline) with true. apply skip_ws_spaces.
Qed.

Lemma ends_value_indent (level : nat) (s : string) :
  ends_value (newline_indent level +:+ s).
Proof. unfold newline_indent. rewrite append_cons. by right. Qed.

Lemma number_head_plain (c : ascii) :
  number_head c →
  is_ws c = false ∧ (N_of_ascii c =? 93)%N = false ∧ (N_of_ascii c =? 34)%N = false.
Proof.
  unfold number_head. cbn [In].
  intros [<-|[<-|[<-|[<-|[<-|[<-|[<-|[<-|[<-|[<-|[<-|[]]]]]]]]]]]]; done.
Qed.

Lemma str_of_Z_head (n : Z) : ∃ c s, str_of_Z n = String c s ∧ number_head c.
Proof.
  unfold str_of_Z, number_head.
  destruct n as [|p|p]; cbn [Z.to_int NilZero.string_of_int].
  - exists "0"%char, "". split; [done|]. cbn. tauto.
  - rewrite string_of_uint_nonnil by apply DecimalPos.Unsigned.to_uint_nonnil.
    pose proof (to_uint_head p) as Hhead.
    destruct (Pos.to_uint p); try done; cbn [NilEmpty.string_of_uint];
      eexists _, _; (split; [reflexivity|]); cbn; tauto.
  - eexists _, _. split; [reflexivity|]. cbn. tauto.
Qed.

(** A dump starts with a character that is no white space and does not
    close a list. *)
Lemma dump_head (level : nat) (v : json) :
  ∃ c s, dump level v = String c s ∧ is_ws c = false ∧ (N_of_ascii c =? 93)%N = false.
Proof.
  destruct v as [|[]|n|s|[|x l]|[|kv d]]; try (by eexists _, _).
  destruct (str_of_Z_head n) as (c & s & Hs & Hc). exists c, s.
  split; [done|]. by destruct (number_head_plain c Hc) as (? & ? & ?).
Qed.

Lemma skip_ws_dump (level : nat) (v : json) (rest : string) :
  skip_ws (dump level v +:+ rest) = dump level v +:+ rest.
Proof.
  destruct (dump_head level v) as (c & s & -> & Hws & _).
  rewrite append_cons. by apply skip_ws_head.
Qed.

(** ** The cache: the cases of [scan_once] *)

Lemma scan_once_string (fuel : nat) (s : string) :
  scan_once (S fuel) (String dquote s) = r ← scanstring s; Some (JStr (fst r), snd r).
Proof. reflexivity. Qed.

Lemma scan_once_list (fuel : nat) (s : string) :
  scan_once (S fuel) (String "[" s) =
  match skip_ws s with
  | String c1 s1 =>
      if (N_of_ascii c1 =? 93)%N then Some (JList [], s1)
      else r ← parse_items fuel (String c1 s1); Some (JList (fst r), snd r)
  | EmptyString => None
  end.
Proof. reflexivity. Qed.

Lemma scan_once_dict (fuel : nat) (s : string) :
  scan_once (S fuel) (String "{" s) =
  match skip_ws s with
  | String c1 s1 =>
      if (N_of_ascii c1 =? 125)%N then Some (JDict [], s1)
      else r ← parse_pairs fuel (String c1 s1); Some (JDict (dict_of_pairs (fst r)), snd r)
  | EmptyString => None
  end.
Proof. reflexivity. Qed.

Lemma substring_all (s : string) : String.substring 0 (String.length s) s = s.
Proof. induction s as [|c s IH]; [done|]. cbn [String.length String.substring]. by rewrite IH. Qed.

Lemma prefix_append (w rest : string) : String.prefix w (w +:+ rest) = true.
Proof.
  induction w as [|a w IH]; [by destruct rest|].
  rewrite append_cons. cbn [String.prefix]. by destruct (ascii_dec a a).
Qed.

Lemma substring_append (w rest : string) (n : nat) :
  String.substring (String.length w) n (w +:+ rest) = String.substring 0 n rest.
Proof. induction w as [|a w IH]; [done|]. rewrite append_cons. exact IH. Qed.

Lemma drop_prefix_append (w rest : string) : drop_prefix w (w +:+ rest) = Some rest.
Proof.
  unfold drop_prefix. rewrite prefix_append, substring_append, length_append.
  replace (String.length w + String.length rest - String.length w)%nat
    with (String.length rest) by lia.
  by rewrite substring_all.
Qed.

Lemma scan_once_null (fuel : nat) (rest : string) :
  scan_once (S fuel) ("null" +:+ rest) = Some (JNull, rest).
Proof.
  change (scan_once (S fuel) ("null" +:+ rest)) with
    (match drop_prefix "null" ("null" +:+ rest) with
     | Some r => Some (JNull, r)
     | None => None
     end).
  by rewrite drop_prefix_append.
Qed.

Lemma scan_once_true (fuel : nat) (rest : string) :
  scan_once (S fuel) ("true" +:+ rest) = Some (JBool true, rest).
Proof.
  change (scan_once (S fuel) ("true" +:+ rest)) with
    (match drop_prefix "true" ("true" +:+ rest) with
     | Some r => Some (JBool true, r)
     | None =>
         match drop_prefix "false" ("true" +:+ rest) with
         | Some r => Some (JBool false, r)
         | None => scan_number ("true" +:+ rest)
         end
     end).
  by rewrite drop_prefix_append.
Qed.

Lemma scan_once_false (fuel : nat) (rest : string) :
  scan_once (S fuel) ("false" +:+ rest) = Some (JBool false, rest).
Proof.
  change (scan_once (S fuel) ("false" +:+ rest)) with
    (match drop_prefix "false" ("false" +:+ rest) with
     | Some r => Some (JBool false, r)
     | None => scan_number ("false" +:+ rest)
     end).
  by rewrite drop_prefix_append.
Qed.

Lemma scan_once_number (fuel : nat) (c : ascii) (s : string) :
  number_head c → scan_once (S fuel) (String c s) = scan_number (String c s).
Proof.
  unfold number_head. cbn [In].
  intros [<-|[<-|[<-|[<-|[<-|[<-|[<-|[<-|[<-|[<-|[<-|[]]]]]]]]]]]]; reflexivity.
Qed.

(** ** The cache: lists and dicts *)

Lemma json_nested_ind (P : json → Prop) :
  P JNull → (∀ b, P (JBool b)) → (∀ n, P (JInt n)) → (∀ s, P (JStr s)) →
  (∀ items, Forall P items → P (JList items)) →
  (∀ pairs, Forall (fun kv => P (snd kv)) pairs → P (JDict pairs)) →
  ∀ v, P v.
Proof.
  intros Hnull Hbool Hint Hstr Hlist Hdict.
  fix IH 1. intros [|b|n|s|items|pairs].
  - exact Hnull.
  - apply Hbool.
  - apply Hint.
  - apply Hstr.
  - apply Hlist. induction items as [|x items IHitems]; constructor; [apply IH|exact IHitems].
  - apply Hdict. induction pairs as [|[k x] pairs IHpairs]; constructor;
      [apply IH|exact IHpairs].
Qed.

Lemma dict_set_fresh (k : string) (v : json) (d : list (string * json)) :
  ¬ In k (map fst d) → dict_set k v d = d ++ [(k, v)].
Proof.
  induction d as [|[k' v'] d IH]; [done|]. cbn [map fst In dict_set]. intros Hk.
  destruct (String.eqb_spec k k') as [->|Hne]; [tauto|].
  rewrite IH by tauto. done.
Qed.

Lemma dict_of_pairs_NoDup (d : list (string * json)) :
  List.NoDup (map fst d) → dict_of_pairs d = d.
Proof.
  unfold dict_of_pairs.
  assert (∀ l acc, List.NoDup (map fst (acc ++ l)) →
            fold_left (fun d kv => dict_set (fst kv) (snd kv) d) l acc = acc ++ l) as Hgen.
  { induction l as [|[k v] l IH]; intros acc Hnd; [by rewrite List.app_nil_r|].
    cbn [fold_left fst snd].
    rewrite dict_set_fresh.
    - rewrite IH; rewrite <- List.app_assoc; done.
    - rewrite List.map_app in Hnd. cbn [map fst] in Hnd.
      apply List.NoDup_remove_2 in Hnd. intros Hin. apply Hnd.
      apply in_or_app. by left. }
  intros Hnd. by apply (Hgen d []).
Qed.

Lemma concat_one (sep a : string) : String.concat sep [a] = a.
Proof. reflexivity. Qed.

Lemma concat_more (sep a b : string) (l : list string) :
  String.concat sep (a :: b :: l) = a +:+ sep +:+ String.concat sep (b :: l).
Proof. reflexivity. Qed.

Lemma parse_items_step (fuel : nat) (x : json) (level : nat) (tail : string) :
  reads_back x → wf_json x → (json_size x ≤ fuel)%nat → ends_value tail →
  parse_items (S fuel) (dump level x +:+ tail) =
  match skip_ws tail with
  | String c s1 =>
      if (N_of_ascii c =? 93)%N then Some ([x], s1)
      else if (N_of_ascii c =? 44)%N then
        rs ← parse_items fuel (skip_ws s1); Some (x :: fst rs, snd rs)
      else None
  | EmptyString => None
  end.
Proof.
  intros Hx Hwf Hsize Htail.
  change (parse_items (S fuel) (dump level x +:+ tail)) with
    (r ← scan_once fuel (dump level x +:+ tail);
     match skip_ws (snd r) with
     | String c s1 =>
         if (N_of_ascii c =? 93)%N then Some ([fst r], s1)
         else if (N_of_ascii c =? 44)%N then
           rs ← parse_items fuel (skip_ws s1); Some (fst r :: fst rs, snd rs)
         else None
     | EmptyString => None
     end).
  by rewrite (Hx level fuel tail Hwf Hsize Htail).
Qed.

Lemma parse_items_dump (items : list json) :
  items ≠ [] → Forall reads_back items →
  ∀ level fuel rest,
    fold_right (fun x P => wf_json x ∧ P) True items →
    (fold_right (fun x n => S (json_size x + n)) O items ≤ fuel)%nat →
    parse_items fuel
      (String.concat ("," +:+ newline_indent (S level)) (map (dump (S level)) items) +:+
       newline_indent level +:+ String "]" rest) = Some (items, rest).
Proof.
  intros Hne Hall level.
  induction Hall as [|x items Hx Hall IH]; [done|]. clear Hne.
  intros fuel rest [Hwf Hwfs] Hsize. cbn [fold_right] in Hsize.
  destruct fuel as [|fuel]; [lia|].
  destruct items as [|y items].
  - cbn [map]. rewrite concat_one.
    rewrite parse_items_step; [|done|done|lia|apply ends_value_indent].
    rewrite skip_ws_indent, skip_ws_head by done.
    by change (N_of_ascii "]" =? 93)%N with true.
  - cbn [map] in *. rewrite concat_more, !append_assoc.
    rewrite append_cons. change ("" +:+ ?s) with s.
    rewrite parse_items_step; [|done|done|lia|by left].
    rewrite skip_ws_head by done.
    change (N_of_ascii "," =? 93)%N with false. change (N_of_ascii "," =? 44)%N with true.
    cbv iota. rewrite skip_ws_indent.
    destruct (dump_head (S level) y) as (c & s & Hy & Hws & _).
    assert (∀ t, skip_ws (String.concat ("," +:+ newline_indent (S level))
                            (dump (S level) y :: map (dump (S level)) items) +:+ t) =
                 String.concat ("," +:+ newline_indent (S level))
                   (dump (S level) y :: map (dump (S level)) items) +:+ t) as Hskip.
    { intros t. destruct (map (dump (S level)) items) as [|z zs].
      - rewrite concat_one. apply skip_ws_dump.
      - rewrite concat_more, !append_assoc. apply skip_ws_dump. }
    rewrite Hskip, (IH ltac:(done) fuel rest Hwfs) by lia.
    done.
Qed.

Lemma parse_pairs_step (fuel : nat) (k : string) (x : json) (level : nat) (tail : string) :
  reads_back x → wf_json x → (json_size x ≤ fuel)%nat → ends_value tail →
  parse_pairs (S fuel) (encode_str k +:+ ": " +:+ dump level x +:+ tail) =
  match skip_ws tail with
  | String c s2 =>
      if (N_of_ascii c =? 125)%N then Some ([(k, x)], s2)
      else if (N_of_ascii c =? 44)%N then
        rs ← parse_pairs fuel (skip_ws s2); Some ((k, x) :: fst rs, snd rs)
      else None
  | EmptyString => None
  end.
Proof.
  intros Hx Hwf Hsize Htail.
  rewrite encode_str_append.
  change (parse_pairs (S fuel)
            (String dquote (encode_chars k +:+ String dquote (": " +:+ dump level x +:+ tail))))
    with
    (key ← scanstring (encode_chars k +:+ String dquote (": " +:+ dump level x +:+ tail));
     match skip_ws (snd key) with
     | String colon s1 =>
         if (N_of_ascii colon =? 58)%N then
           r ← scan_once fuel (skip_ws s1);
           match skip_ws (snd r) with
           | String c s2 =>
               if (N_of_ascii c =? 125)%N then Some ([(fst key, fst r)], s2)
               else if (N_of_ascii c =? 44)%N then
                 rs ← parse_pairs fuel (skip_ws s2);
                 Some ((fst key, fst r) :: fst rs, snd rs)
               else None
           | EmptyString => None
           end
         else None
     | EmptyString => None
     end).
  rewrite scanstring_encode_chars. cbn [mbind option_bind fst snd].
  change (": " +:+ dump level x +:+ tail) with (String ":" (String " " (dump level x +:+ tail))).
  rewrite skip_ws_head by done.
  change (N_of_ascii ":" =? 58)%N with true. cbv iota.
  cbn [skip_ws]. change (is_ws " ") with true. cbv iota.
  rewrite skip_ws_dump, (Hx level fuel tail Hwf Hsize Htail).
  done.
Qed.

Lemma parse_pairs_dump (pairs : list (string * json)) :
  pairs ≠ [] → Forall (fun kv => reads_back (snd kv)) pairs →
  ∀ level fuel rest,
    fold_right (fun kv P => wf_json (snd kv) ∧ P) True pairs →
    (fold_right (fun kv n => S (json_size (snd kv) + n)) O pairs ≤ fuel)%nat →
    parse_pairs fuel
      (String.concat ("," +:+ newline_indent (S level))
         (map (fun kv => encode_str (fst kv) +:+ ": " +:+ dump (S level) (snd kv)) pairs) +:+
       newline_indent level +:+ String "}" rest) = Some (pairs, rest).
Proof.
  intros Hne Hall level.
  induction Hall as [|[k x] pairs Hx Hall IH]; [done|]. clear Hne.
  intros fuel rest [Hwf Hwfs] Hsize. cbn [fold_right fst snd] in *.
  destruct fuel as [|fuel]; [lia|].
  destruct pairs as [|[k' y] pairs].
  - cbn [map fst snd]. rewrite concat_one, !append_assoc.
    rewrite parse_pairs_step; [|done|done|lia|apply ends_value_indent].
    rewrite skip_ws_indent, skip_ws_head by done.
    by change (N_of_ascii "}" =? 125)%N with true.
  - cbn [map fst snd] in *. rewrite concat_more, !append_assoc.
    rewrite (append_cons "," ""). change ("" +:+ ?s) with s.
    rewrite parse_pairs_step; [|done|done|lia|by left].
    rewrite skip_ws_head by done.
    change (N_of_ascii "," =? 125)%N with false. change (N_of_ascii "," =? 44)%N with true.
    cbv iota. rewrite skip_ws_indent.
    assert (∀ t, skip_ws (String.concat ("," +:+ newline_indent (S level))
                   ((encode_str k' +:+ ": " +:+ dump (S level) y)
                    :: map (fun kv => encode_str (fst kv) +:+ ": " +:+ dump (S level) (snd kv))
                         pairs) +:+ t) =
                 String.concat ("," +:+ newline_indent (S level))
                   ((encode_str k' +:+ ": " +:+ dump (S level) y)
                    :: map (fun kv => encode_str (fst kv) +:+ ": " +:+ dump (S level) (snd kv))
                         pairs) +:+ t) as Hskip.
    { intros t.
      destruct (map (fun kv => encode_str (fst kv) +:+ ": " +:+ dump (S level) (snd kv)) pairs)
        as [|z zs].
      - rewrite concat_one, !append_assoc, encode_str_append. by apply skip_ws_head.
      - rewrite concat_more, !append_assoc, encode_str_append. by apply skip_ws_head. }
    rewrite Hskip, (IH ltac:(done) fuel rest Hwfs) by lia.
    done.
Qed.

Lemma dump_list_eq (level : nat) (x : json) (items : list json) :
  dump level (JList (x :: items)) =
  "[" +:+ newline_indent (S level) +:+
  String.concat ("," +:+ newline_indent (S level)) (map (dump (S level)) (x :: items)) +:+
  newline_indent level +:+ "]".
Proof. reflexivity. Qed.

Lemma dump_dict_eq (level : nat) (kv : string * json) (pairs : list (string * json)) :
  dump level (JDict (kv :: pairs)) =
  "{" +:+ newline_indent (S level) +:+
  String.concat ("," +:+ newline_indent (S level))
    (map (fun kv => encode_str (fst kv) +:+ ": " +:+ dump (S level) (snd kv)) (kv :: pairs)) +:+
  newline_indent level +:+ "}".
Proof. reflexivity. Qed.

Lemma concat_head (sep a : string) (l : list string) (t : string) :
  ∃ t', String.concat sep (a :: l) +:+ t = a +:+ t'.
Proof.
  destruct l as [|b l].
  - rewrite concat_one. by eexists.
  - rewrite concat_more, !append_assoc. by eexists.
Qed.

(** Every value is read back from its dump. *)
Lemma dump_reads_back (v : json) : reads_back v.
Proof.
  induction v as [|b|n|s|items IH|pairs IH] using json_nested_ind;
    intros level fuel rest Hwf Hsize Hrest;
    (destruct fuel as [|fuel]; [cbn [json_size] in Hsize; lia|]).
  - apply scan_once_null.
  - destruct b; [apply scan_once_true|apply scan_once_false].
  - cbn [dump]. destruct (str_of_Z_head n) as (c & s & Hs & Hc).
    rewrite Hs, append_cons, (scan_once_number _ _ _ Hc), <- append_cons, <- Hs.
    by apply scan_number_int.
  - cbn [dump]. rewrite encode_str_append, scan_once_string, scanstring_encode_chars. done.
  - destruct items as [|x items].
    + change (dump level (JList []) +:+ rest) with (String "[" (String "]" rest)).
      rewrite scan_once_list, skip_ws_head by done.
      by change (N_of_ascii "]" =? 93)%N with true.
    + rewrite dump_list_eq, !append_assoc, append_cons. change ("" +:+ ?s) with s.
      rewrite scan_once_list, skip_ws_indent.
      pose proof (parse_items_dump (x :: items) ltac:(done) IH level fuel rest Hwf) as Hitems.
      cbn [json_size] in Hsize. specialize (Hitems ltac:(lia)).
      change ("]" +:+ rest) with (String "]" rest).
      cbn [map] in *.
      destruct (concat_head ("," +:+ newline_indent (S level)) (dump (S level) x)
                  (map (dump (S level)) items) (newline_indent level +:+ String "]" rest))
        as [t' Ht'].
      destruct (dump_head (S level) x) as (c & s & Hx & Hws & H93).
      rewrite Ht', Hx, append_cons in *.
      rewrite skip_ws_head, H93, Hitems by done. done.
  - destruct pairs as [|[k x] pairs].
    + change (dump level (JDict []) +:+ rest) with (String "{" (String "}" rest)).
      rewrite scan_once_dict, skip_ws_head by done.
      by change (N_of_ascii "}" =? 125)%N with true.
    + rewrite dump_dict_eq, !append_assoc, append_cons. change ("" +:+ ?s) with s.
      rewrite scan_once_dict, skip_ws_indent.
      destruct Hwf as [Hnd Hwf].
      pose proof (parse_pairs_dump ((k, x) :: pairs) ltac:(done) IH level fuel rest Hwf) as Hpairs.
      cbn [json_size] in Hsize. specialize (Hpairs ltac:(lia)).
      change ("}" +:+ rest) with (String "}" rest).
      cbn [map fst snd] in *.
      destruct (concat_head ("," +:+ newline_indent (S level))
                  (encode_str k +:+ ": " +:+ dump (S level) x)
                  (map (fun kv => encode_str (fst kv) +:+ ": " +:+ dump (S level) (snd kv)) pairs)
                  (newline_indent level +:+ String "}" rest))
        as [t' Ht'].
      rewrite Ht', !append_assoc, encode_str_append in *.
      rewrite skip_ws_head by done.
      change (N_of_ascii dquote =? 125)%N with false. cbv iota.
      rewrite Hpairs. cbn [mbind option_bind fst snd].
      by rewrite dict_of_pairs_NoDup.
Qed.

(** ** The cache: the length of a dump is fuel enough *)

Lemma length_indent (level : nat) : (1 ≤ String.length (newline_indent level))%nat.
Proof. unfold newline_indent. cbn [String.length]. lia. Qed.

Lemma length_concat_dump (sep : string) (level : nat) (items : list json) :
  items ≠ [] → (1 ≤ String.length sep)%nat →
  Forall (fun x => ∀ level, (json_size x ≤ String.length (dump level x))%nat) items →
  (fold_right (fun x n => S (json_size x + n)) O items
   ≤ String.length (String.concat sep (map (dump level) items)) + 1)%nat.
Proof.
  intros Hne Hsep Hall. induction Hall as [|x items Hx Hall IH]; [done|]. clear Hne.
  destruct items as [|y items].
  - cbn [map fold_right]. rewrite concat_one. specialize (Hx level). lia.
  - cbn [map] in *. rewrite concat_more, !length_append.
    specialize (IH ltac:(done)). specialize (Hx level).
    change (fold_right (fun x n => S (json_size x + n)) O (x :: y :: items))
      with (S (json_size x + fold_right (fun x n => S (json_size x + n)) O (y :: items))).
    lia.
Qed.

Lemma length_concat_pairs (sep : string) (level : nat) (pairs : list (string * json)) :
  pairs ≠ [] → (1 ≤ String.length sep)%nat →
  Forall (fun kv => ∀ level, (json_size (snd kv) ≤ String.length (dump level (snd kv)))%nat)
    pairs →
  (fold_right (fun kv n => S (json_size (snd kv) + n)) O pairs
   ≤ String.length
       (String.concat sep
          (map (fun kv => encode_str (fst kv) +:+ ": " +:+ dump level (snd kv)) pairs)) + 1)%nat.
Proof.
  intros Hne Hsep Hall. induction Hall as [|[k x] pairs Hx Hall IH]; [done|]. clear Hne.
  cbn [snd] in Hx. specialize (Hx level).
  destruct pairs as [|kv' pairs].
  - cbn [map fold_right fst snd]. rewrite concat_one, !length_append. lia.
  - cbn [map fst snd] in *. rewrite concat_more, !length_append.
    specialize (IH ltac:(done)).
    change (fold_right (fun kv n => S (json_size (snd kv) + n)) O ((k, x) :: kv' :: pairs))
      with (S (json_size x +
               fold_right (fun kv n => S (json_size (snd kv) + n)) O (kv' :: pairs))).
    lia.
Qed.

Lemma json_size_length (v : json) :
  ∀ level, (json_size v ≤ String.length (dump level v))%nat.
Proof.
  induction v as [|b|n|s|items IH|pairs IH] using json_nested_ind; intros level.
  - cbn. lia.
  - destruct b; cbn; lia.
  - cbn [dump json_size]. destruct (str_of_Z_head n) as (c & s & -> & _).
    cbn [String.length]. lia.
  - cbn [dump json_size]. unfold encode_str. cbn [String.length]. lia.
  - destruct items as [|x items]; [cbn; lia|].
    rewrite dump_list_eq, !length_append.
    pose proof (length_concat_dump ("," +:+ newline_indent (S level)) (S level) (x :: items)
                  ltac:(done) ltac:(rewrite append_cons; cbn [String.length]; lia) IH) as H.
    pose proof (length_indent level). pose proof (length_indent (S level)).
    cbn [json_size]. cbn [String.length]. lia.
  - destruct pairs as [|kv pairs]; [cbn; lia|].
    rewrite dump_dict_eq, !length_append.
    pose proof (length_concat_pairs ("," +:+ newline_indent (S level)) (S level) (kv :: pairs)
                  ltac:(done) ltac:(rewrite append_cons; cbn [String.length]; lia) IH) as H.
    pose proof (length_indent level). pose proof (length_indent (S level)).
    cbn [json_size]. cbn [String.length]. lia.
Qed.

(** [json.loads(json.dumps(v, ensure_ascii=False, indent=2)) == v]. *)
Lemma loads_dumps (v : json) : wf_json v → loads (dumps v) = Some v.
Proof.
  intros Hwf. unfold loads, dumps.
  rewrite <- (append_nil_r (dump 0 v)) at 2. rewrite skip_ws_dump.
  rewrite (dump_reads_back v 0%nat (S (String.length (dump 0 v))) "" Hwf); [done| |done].
  pose proof (json_size_length v 0%nat). lia.
Qed.

Lemma wf_json_list (records : list json) :
  Forall wf_json records → wf_json (JList records).
Proof. cbn [wf_json]. induction 1; cbn [fold_right]; auto. Qed.

Lemma write_file_over (q : path) (data old : string) (n : node) :
  q ≠ [] → lookup_path q n = Some (File old) → ∃ n', write_file q data n = Ok n'.
Proof.
  revert n. induction q as [|seg q IH]; [done|]. intros n _ Hn.
  destruct n as [d0|entries]; [done|]. rewrite lookup_path_cons in Hn.
  destruct (entries !! seg) as [c|] eqn:Hc; [|done]. cbn [mbind option_bind] in Hn.
  destruct q as [|seg' q].
  - injection Hn as ->. rewrite write_file_one, Hc. by eexists.
  - rewrite write_file_cons, Hc by done.
    destruct (IH c ltac:(done) Hn) as [c' ->]. by eexists.
Qed.

(** ** The cache file *)



(** ** The whole run *)

Section Run.
Variable bootstrap : option json.
Variable net : Z → option json.
Variable completion : list Z → list Z.
Variable web : json → response.
Variable now_year : Z.
Variable download_dir : path.
Variables (min_installs : Z) (max_installs max_pages : option Z).

Lemma enumerate_not_bootstrapped :
  (∀ total, ¬ yields_page_count bootstrap total) →
  fst (enumerate bootstrap net completion min_installs max_installs max_pages now_year) = [1] ∧
  ∀ valid_plugins,
    snd (enumerate bootstrap net completion min_installs max_installs max_pages now_year)
    ≠ Enumerated valid_plugins.
Proof.
  intros Hno.
  assert (∀ valid_plugins,
    snd (enumerate bootstrap net completion min_installs max_installs max_pages now_year)
    ≠ Enumerated valid_plugins) as Hsnd.
  { intros vs Hvs. apply enumerate_needs_bootstrap in Hvs as [total Ht]. by apply (Hno total). }
  split; [|done].
  revert Hsnd. unfold enumerate.
  destruct (py_not (get_plugins bootstrap)); [done|].
  destruct (py_contains "info" (get_plugins bootstrap)) as [[]|]; [|done|done].
  destruct (pages_to_fetch max_pages (get_plugins bootstrap)) as [pages|]; [|done].
  intros H. by destruct (H _ eq_refl).
Qed.

(** Without a page count the run ends after the first request: the
    plugins directory is there, no cache is written, nothing is
    downloaded. *)
Lemma run_without_page_count (w : world) (fs0 : node) :
  (∀ total, ¬ yields_page_count bootstrap total) →
  mkdir_parents (download_dir ++ ["plugins"]) (fs w) = Ok fs0 →
  snd (download_all_plugins bootstrap net completion web now_year download_dir
         min_installs max_installs max_pages false w) =
  mk_world fs0 (sent w ++ [PageRequest 1]).
Proof.
  intros Hno Hmk. unfold download_all_plugins. rewrite Hmk. cbn [andb].
  destruct (enumerate_not_bootstrapped Hno) as [Hfst Hsnd]. rewrite Hfst.
  destruct (snd (enumerate bootstrap net completion min_installs max_installs max_pages
                   now_year)) as [|e|vs]; [done|done|].
  by destruct (Hsnd vs).
Qed.

(** With [use_cache] and a cache file that loads, the registry is not
    asked for any page. *)
Lemma run_from_cache (w : world) (fs0 : node) (valid_plugins : json) :
  mkdir_parents (download_dir ++ ["plugins"]) (fs w) = Ok fs0 →
  path_exists (cache_path download_dir) fs0 = true →
  load_cache (cache_path download_dir) fs0 = Ok valid_plugins →
  download_all_plugins bootstrap net completion web now_year download_dir
    min_installs max_installs max_pages true w =
  download_valid web download_dir min_installs max_installs valid_plugins
    (mk_world fs0 (sent w)).
Proof.
  intros Hmk Hex Hload. unfold download_all_plugins. rewrite Hmk. cbn [andb].
  by rewrite Hex, Hload.
Qed.
End Run.

(** * Further properties *)

(** ** Pages and their records *)

Section Pages.
Variable net : Z → option json.
Variables (min_installs : Z) (max_installs : option Z) (now_year : Z).

Lemma filter_plugins_raises (plugins : list json) (bad : json) (e : exn) :
  In bad plugins →
  keep_plugin min_installs max_installs now_year bad = Raise e →
  ∃ e', filter_plugins min_installs max_installs now_year plugins = Raise e'.
Proof.
  induction plugins as [|p plugins IH]; [done|].
  intros [->|Hin] Hbad; cbn [filter_plugins].
  - rewrite Hbad. by eexists.
  - destruct (keep_plugin min_installs max_installs now_year p) as [keep|e1];
      cbn [mbind result_bind]; [|by eexists].
    destruct (IH Hin Hbad) as [e' ->]. by eexists.
Qed.

Lemma filter_plugins_filter (plugins : list json) :
  Forall (fun p => ∃ keep, keep_plugin min_installs max_installs now_year p = Ok keep) plugins →
  filter_plugins min_installs max_installs now_year plugins =
  Ok (List.filter (kept min_installs max_installs now_year) plugins).
Proof.
  induction 1 as [|p plugins [keep Hp] Hall IH]; [done|].
  cbn [filter_plugins List.filter]. unfold kept at 1. rewrite Hp, IH.
  cbn [mbind result_bind]. by destruct keep.
Qed.


(** X2: on a page whose records all have an integer install count (or
    none), [process_page] returns the records the filter keeps, in the
    order of the page and as often as the page holds them. *)
Theorem process_page_filters
    (page : Z) (d : list (string * json)) (plugins : list json) :
  net page = Some (JDict d) →
  dict_get "plugins" d = Some (JList plugins) →
  Forall (fun p => ∃ record installs,
            p = JDict record ∧
            py_int (default (JInt 0) (dict_get "active_installs" record)) = Ok installs)
    plugins →
  process_page net min_installs max_installs now_year page =
  List.filter (kept min_installs max_installs now_year) plugins.
Proof.
  intros Hnet Hplugins Hall.
  unfold process_page. rewrite Hnet. cbn [get_plugins py_get].
  rewrite Hplugins. change (default (JList []) (Some (JList plugins))) with (JList plugins).
  cbn [mbind result_bind py_iter].
  rewrite filter_plugins_filter; [done|].
  eapply Forall_impl; [exact Hall|].
  intros p (record & installs & -> & Hi).
  rewrite (keep_plugin_bounds _ _ _ _ _ Hi). by eexists.
Qed.
End Pages.


Lemma process_page_filters_witness :
  process_page net_bad_record 1000 None 2025 2 =
  [JDict (sample_record 4000 "2025-01-02 10:15am GMT");
   JDict (sample_record 4000 "2025-01-02 10:15am GMT")].
Proof.
  rewrite (process_page_filters net_bad_record 1000 None 2025 2
             [("info", JDict [("page", JInt 1); ("pages", JInt 3)]);
              ("plugins", JList (map JDict
                 [sample_record 10 "2024-03-14 9:05pm GMT";
                  sample_record 4000 "2025-01-02 10:15am GMT";
                  sample_record 4000 "2025-01-02 10:15am GMT";
                  sample_record 5000 "2019-01-02 10:15am GMT"]))]
             (map JDict
                 [sample_record 10 "2024-03-14 9:05pm GMT";
                  sample_record 4000 "2025-01-02 10:15am GMT";
                  sample_record 4000 "2025-01-02 10:15am GMT";
                  sample_record 5000 "2019-01-02 10:15am GMT"])).
  - reflexivity.
  - reflexivity.
  - reflexivity.
  - repeat constructor; eexists _, _; (split; [reflexivity|reflexivity]).
Defined.

(** ** The aggregated sequence *)

Lemma Permutation_concat_map {A B} (f : A → list B) (l l' : list A) :
  Permutation l l' → Permutation (List.concat (map f l)) (List.concat (map f l')).
Proof.
  induction 1 as [|x l l' Hp IH|x y l|l l' l'' H1 IH1 H2 IH2]; cbn [map List.concat].
  - done.
  - by apply Permutation_app_head.
  - rewrite !List.app_assoc. apply Permutation_app_tail, Permutation_app_comm.
  - by etransitivity.
Qed.

Section Aggregation.
Variable bootstrap : option json.
Variable net : Z → option json.
Variable completion : list Z → list Z.
Variables (min_installs : Z) (max_installs max_pages : option Z) (now_year : Z).

(** X3: whatever the order in which the page tasks complete, the
    aggregated sequence is a rearrangement of the results of the pages 1
    to the bound put one after the other: no record is lost, none is added
    and none is merged with its duplicates. *)
Theorem enumerated_is_permutation (total : Z) (valid_plugins : list json) :
  (∀ l, Permutation (completion l) l) →
  yields_page_count bootstrap total →
  snd (enumerate bootstrap net completion min_installs max_installs max_pages now_year)
  = Enumerated valid_plugins →
  Permutation valid_plugins
    (List.concat (map (process_page net min_installs max_installs now_year)
                      (page_range (page_bound max_pages total)))) ∧
  List.length valid_plugins =
  list_sum (map (fun page => List.length (process_page net min_installs max_installs now_year page))
                (page_range (page_bound max_pages total))).
Proof.
  intros Hperm Ht. rewrite (enumerate_bootstrapped _ _ _ _ _ _ _ total Ht). cbn [snd].
  intros [= <-].
  assert (Permutation
            (List.concat (map (process_page net min_installs max_installs now_year)
                              (completion (page_range (page_bound max_pages total)))))
            (List.concat (map (process_page net min_installs max_installs now_year)
                              (page_range (page_bound max_pages total))))) as Hp
    by apply Permutation_concat_map, Hperm.
  split; [exact Hp|].
  rewrite (Permutation_length Hp). clear Hp.
  induction (page_range (page_bound max_pages total)) as [|page pages IH]; [done|].
  cbn [map List.concat]. rewrite List.length_app, IH. reflexivity.
Qed.

End Aggregation.

Lemma enumerated_is_permutation_witness :
  ∃ valid_plugins,
    snd (enumerate (Some (first_page_of 3)) net_bad_record (@rev Z) 1000 None None 2025)
    = Enumerated valid_plugins ∧
    List.length valid_plugins = 2%nat.
Proof.
  eexists. split; [reflexivity|].
  destruct (enumerated_is_permutation (Some (first_page_of 3)) net_bad_record (@rev Z)
              1000 None None 2025 3 _ (fun l => Permutation_sym (Permutation_rev l))
              (yields_first_page_of 3) eq_refl) as [_ Hlen].
  rewrite Hlen. reflexivity.
Defined.


(** ** Files outside the plugin directory *)

Lemma rmtree_outside (p : path) (n : node) (x : path) (d : string) :
  ¬ p `prefix_of` x →
  lookup_path x (rmtree p n) = Some (File d) ↔ lookup_path x n = Some (File d).
Proof.
  revert n x. induction p as [|seg p IH]; intros n x Hout.
  { exfalso. apply Hout. by exists x. }
  destruct n as [d0|entries]; [by rewrite rmtree_File|].
  destruct x as [|s x].
  { destruct (rmtree_Dir (seg :: p) entries) as [e' ->]. done. }
  destruct p as [|seg' p].
  - rewrite rmtree_one.
    destruct (entries !! seg) as [[d1|e1]|] eqn:Hc; try done.
    rewrite !lookup_path_cons.
    destruct (decide (seg = s)) as [<-|Hne]; [|by rewrite lookup_delete_ne].
    exfalso. apply Hout. by exists x.
  - rewrite rmtree_cons by done.
    destruct (entries !! seg) as [c|] eqn:Hc; [|done].
    rewrite !lookup_path_cons.
    destruct (decide (seg = s)) as [<-|Hne]; [|by rewrite lookup_insert_ne].
    rewrite lookup_insert_eq, Hc. cbn [mbind option_bind].
    apply IH. intros [y ->]. apply Hout. by exists y.
Qed.

Lemma write_file_other (q : path) (data : string) (n n' : node) :
  write_file q data n = Ok n' →
  ∀ x d, x ≠ q → lookup_path x n = Some (File d) → lookup_path x n' = Some (File d).
Proof.
  revert n n'. induction q as [|seg q IH]; intros [d0|entries] n';
    try (by rewrite ?write_file_File).
  destruct q as [|seg' q].
  - rewrite write_file_one.
    destruct (entries !! seg) as [[d1|e1]|] eqn:Hc; [|done|];
      intros [= <-] [|s x] d Hx; try done; rewrite !lookup_path_cons;
      (destruct (decide (seg = s)) as [<-|Hne]; [|by rewrite lookup_insert_ne]);
      rewrite lookup_insert_eq, Hc; cbn [mbind option_bind]; [|done].
    destruct x; [done|]. by rewrite lookup_path_File.
  - rewrite write_file_cons by done.
    destruct (entries !! seg) as [c|] eqn:Hc; [|done].
    destruct (write_file (seg' :: q) data c) as [c'|] eqn:Hw; cbn [mbind result_bind]; [|done].
    intros [= <-] [|s x] d Hx; [done|]. rewrite !lookup_path_cons.
    destruct (decide (seg = s)) as [<-|Hne]; [|by rewrite lookup_insert_ne].
    rewrite lookup_insert_eq, Hc. cbn [mbind option_bind].
    apply (IH c c' Hw). congruence.
Qed.

Lemma extract_member_outside (p : path) (m : ZipInfo) (n : node) (x : path) (d : string) :
  ¬ p `prefix_of` x →
  lookup_path x (snd (extract_member p m n)) = Some (File d) ↔ lookup_path x n = Some (File d).
Proof.
  intros Hout. unfold extract_member.
  destruct (member_is_unsafe m); [done|].
  destruct (mkdir_parents _ n) as [n1|e1] eqn:H1; [|done].
  pose proof (mkdir_parents_files _ _ _ H1 x d) as Hmk.
  destruct (member_is_dir m); [done|].
  destruct (write_file _ _ n1) as [n2|e2] eqn:H2; [|done].
  cbn [snd]. rewrite <- Hmk.
  assert (x ≠ p ++ parts (filename m)) as Hx.
  { intros ->. apply Hout. by eexists. }
  split.
  - intros H. by destruct (write_file_files _ _ _ _ H2 _ _ H) as [[? ?]|?].
  - by apply (write_file_other _ _ _ _ H2).
Qed.

Lemma extract_members_outside (p : path) (members : list ZipInfo) (n : node)
    (x : path) (d : string) :
  ¬ p `prefix_of` x →
  lookup_path x (snd (extract_members p members n)) = Some (File d) ↔
  lookup_path x n = Some (File d).
Proof.
  intros Hout. revert n. induction members as [|m members IH]; intros n; [done|].
  cbn [extract_members].
  pose proof (extract_member_outside p m n x d Hout) as Hm.
  destruct (extract_member p m n) as [[e|] n1]; cbn [snd] in *; [done|].
  by rewrite IH.
Qed.

Lemma unpacked_outside (p : path) (answer : response) (n : node) (x : path) (d : string) :
  ¬ p `prefix_of` x →
  lookup_path x (unpacked p answer n) = Some (File d) ↔ lookup_path x n = Some (File d).
Proof.
  intros Hout. unfold unpacked. rewrite cleared_rmtree.
  destruct answer as [| |members]; rewrite ?extract_members_outside by done;
    by apply rmtree_outside.
Qed.

Section Confinement.
Variable web : json → response.
Variable download_dir : path.
Variables (min_installs : Z) (max_installs : option Z).

Lemma download_fs_slug (record : list (string * json)) (slug : string) (w : world) :
  dict_get "slug" record = Some (JStr slug) →
  fs (snd (download_and_extract_plugin web download_dir min_installs max_installs
             (JDict record) w)) = fs w ∨
  ∃ link,
    fs (snd (download_and_extract_plugin web download_dir min_installs max_installs
               (JDict record) w)) =
    unpacked (plugin_dir download_dir slug) (web link) (fs w).
Proof.
  intros Hs. unfold download_and_extract_plugin. cbn [py_getitem py_get]. rewrite Hs.
  destruct (py_lt _ min_installs) as [[]|]; [by left| |by left].
  destruct (match max_installs with Some m => py_gt _ m | None => Ok false end)
    as [[]|]; [by left| |by left].
  right. exists (default JNull (dict_get "download_link" record)).
  cbn [plugin_path_of]. unfold unpacked, plugin_dir. by destruct (web _).
Qed.

End Confinement.


(** ** What the extraction leaves of the files there are, and of its members *)

Lemma extract_member_keeps (p : path) (m : ZipInfo) (n : node) (x : path) (d : string) :
  lookup_path x n = Some (File d) →
  lookup_path x (snd (extract_member p m n)) = Some (File d) ∨
  (member_is_unsafe m = false ∧ member_is_dir m = false ∧
   x = p ++ parts (filename m) ∧
   lookup_path x (snd (extract_member p m n)) = Some (File (content m))).
Proof.
  intros Hx. unfold extract_member.
  destruct (member_is_unsafe m); [by left|].
  destruct (mkdir_parents _ n) as [n1|e1] eqn:H1; [|by left].
  apply (mkdir_parents_files _ _ _ H1) in Hx.
  destruct (member_is_dir m); [by left|].
  destruct (write_file _ _ n1) as [n2|e2] eqn:H2; [|by left].
  cbn [snd].
  destruct (decide (x = p ++ parts (filename m))) as [->|Hne].
  - right. repeat split; try done. by apply (write_file_lookup _ _ _ _ H2).
  - left. by apply (write_file_other _ _ _ _ H2).
Qed.

Lemma extract_members_keeps (p : path) (members : list ZipInfo) (n : node)
    (x : path) (d : string) :
  lookup_path x n = Some (File d) →
  lookup_path x (snd (extract_members p members n)) = Some (File d) ∨
  ∃ m, In m members ∧ member_is_unsafe m = false ∧ member_is_dir m = false ∧
       x = p ++ parts (filename m) ∧
       lookup_path x (snd (extract_members p members n)) = Some (File (content m)).
Proof.
  revert n d. induction members as [|m members IH]; intros n d Hx; [by left|].
  cbn [extract_members].
  destruct (extract_member_keeps p m n x d Hx) as [Hkeep|(Hs & Hd & Hdest & Hnew)].
  - destruct (extract_member p m n) as [[e|] n1]; cbn [snd] in *; [by left|].
    destruct (IH n1 d Hkeep) as [?|(m' & Hin & ?)]; [by left|].
    right. exists m'. split; [by right|done].
  - destruct (extract_member p m n) as [[e|] n1]; cbn [snd] in *.
    + right. exists m. split; [by left|done].
    + destruct (IH n1 (content m) Hnew) as [?|(m' & Hin & ?)].
      * right. exists m. split; [by left|done].
      * right. exists m'. split; [by right|done].
Qed.



(** X7: when the extraction of an archive ends without an exception,
    every file member that passed the path check is in the tree: its path
    below the plugin directory holds a file with the content of a member
    of that path (of the member itself, unless the archive names the path
    again). *)
Theorem extraction_is_complete
    (plugin_path : path) (members : list ZipInfo) (fs0 fs' : node) (member : ZipInfo) :
  extract_members plugin_path members fs0 = (None, fs') →
  In member members →
  member_is_unsafe member = false →
  member_is_dir member = false →
  ∃ m', In m' members ∧ member_is_unsafe m' = false ∧ member_is_dir m' = false ∧
        parts (filename m') = parts (filename member) ∧
        lookup_path (plugin_path ++ parts (filename member)) fs' = Some (File (content m')).
Proof.
  revert fs0. induction members as [|m members IH]; intros fs0 Hrun Hin Hsafe Hfile; [done|].
  cbn [extract_members] in Hrun.
  destruct (extract_member plugin_path m fs0) as [[e|] fs1] eqn:Hstep; [done|].
  destruct Hin as [->|Hin].
  - assert (lookup_path (plugin_path ++ parts (filename member)) fs1
            = Some (File (content member))) as Hnew.
    { unfold extract_member in Hstep. rewrite Hsafe, Hfile in Hstep.
      destruct (mkdir_parents _ fs0) as [n1|e1]; [|done].
      destruct (write_file _ _ n1) as [n2|e2] eqn:H2; [|done].
      injection Hstep as <-. by apply (write_file_lookup _ _ _ _ H2). }
    destruct (extract_members_keeps plugin_path members fs1 _ _ Hnew)
      as [H|(m' & Hin' & Hs' & Hd' & Hdest & H)]; rewrite Hrun in H; cbn [snd] in H.
    + exists member. split; [by left|done].
    + exists m'. split; [by right|]. repeat split; try done.
      symmetry. by apply app_inv_head in Hdest.
  - destruct (IH fs1 Hrun Hin Hsafe Hfile) as (m' & Hin' & ?).
    exists m'. split; [by right|done].
Qed.

Lemma extraction_is_complete_witness :
  ∃ m', In m' archive_mixed ∧
        parts (filename m') = ["bar"; "bar.php"] ∧
        lookup_path ["srv"; "plugins"; "bar"; "bar"; "bar.php"]
          (snd (extract_members ["srv"; "plugins"; "bar"] archive_mixed (Dir ∅)))
        = Some (File (content m')).
Proof.
  destruct (extraction_is_complete ["srv"; "plugins"; "bar"] archive_mixed (Dir ∅)
              (snd (extract_members ["srv"; "plugins"; "bar"] archive_mixed (Dir ∅)))
              (mk_member "bar/bar.php" "<?php"))
    as (m' & Hin & _ & _ & Hparts & Hfile).
  - vm_compute. reflexivity.
  - right. right. left. reflexivity.
  - reflexivity.
  - reflexivity.
  - exists m'. split; [exact Hin|]. split; [exact Hparts|exact Hfile].
Defined.

(** ** Resolved paths *)

Lemma In_removelast {A} (x : A) (l : list A) : In x (removelast l) → In x l.
Proof.
  induction l as [|a [|b l] IH]; [done|done|].
  intros [->|H]; [by left|]. right. by apply IH.
Qed.

Lemma resolve_step_plain (q acc : path) :
  ¬ In ".." q →
  fold_left (fun acc seg => if String.eqb seg ".." then removelast acc else acc ++ [seg]) q acc
  = acc ++ q.
Proof.
  revert acc. induction q as [|seg q IH]; intros acc Hq; [by rewrite List.app_nil_r|].
  cbn [fold_left]. destruct (String.eqb_spec seg "..") as [->|Hne].
  - exfalso. apply Hq. by left.
  - rewrite IH by (intros H; apply Hq; by right). by rewrite <- List.app_assoc.
Qed.

Lemma resolve_step_clean (q acc : path) :
  ¬ In ".." acc →
  ¬ In ".."
    (fold_left (fun acc seg => if String.eqb seg ".." then removelast acc else acc ++ [seg])
       q acc).
Proof.
  revert acc. induction q as [|seg q IH]; intros acc Hacc; [done|].
  cbn [fold_left]. apply IH. destruct (String.eqb_spec seg "..") as [->|Hne].
  - intros H. by apply Hacc, In_removelast.
  - intros [H|[H|[]]]%in_app_or; [by apply Hacc|by apply Hne].
Qed.

Lemma resolve_clean (q : path) : ¬ In ".." (resolve q).
Proof. apply resolve_step_clean. by intros []. Qed.

Lemma resolve_plain (q : path) : ¬ In ".." q → resolve q = q.
Proof. intros Hq. unfold resolve. by rewrite resolve_step_plain. Qed.

Lemma resolve_app_plain (a b : path) :
  ¬ In ".." b → resolve (a ++ b) = resolve a ++ b.
Proof.
  intros Hb. unfold resolve. rewrite fold_left_app. by apply resolve_step_plain.
Qed.

Lemma split_slash_no_slash (s seg : string) :
  In seg (split_slash s) → ¬ In "/"%char (list_ascii_of_string seg).
Proof.
  revert seg. induction s as [|c s IH]; intros seg.
  - intros [<-|[]]. by intros [].
  - cbn [split_slash]. destruct (Ascii.eqb_spec c "/") as [->|Hc].
    + intros [<-|H]; [by intros []|by apply IH].
    + destruct (split_slash s) as [|seg0 segs] eqn:Hs.
      * intros [<-|[]]. cbn. intros [H|[]]. by apply Hc.
      * intros [<-|H].
        -- cbn [list_ascii_of_string]. intros [H|H]; [by apply Hc|].
           by apply (IH seg0 (or_introl eq_refl)).
        -- apply IH. by right.
Qed.



(** X9: for a slug that is a relative path without [..] segments, and a
    download directory without them, the plugin directory is the download
    directory followed by [plugins] and the segments of the slug. *)
Theorem plugin_dir_of_relative_slug (download_dir : path) (slug : string) :
  ¬ In ".." download_dir →
  is_absolute slug = false →
  has_dotdot (parts slug) = false →
  plugin_dir download_dir slug = download_dir ++ ["plugins"] ++ parts slug ∧
  (download_dir ++ ["plugins"]) `prefix_of` plugin_dir download_dir slug.
Proof.
  intros Hdir Habs Hdots.
  assert (plugin_dir download_dir slug = download_dir ++ ["plugins"] ++ parts slug) as Heq.
  { unfold plugin_dir, joinpath. rewrite Habs. rewrite resolve_plain.
    - by rewrite <- List.app_assoc.
    - intros [[H|[H|[]]]%in_app_or|H]%in_app_or; [by apply Hdir|done|].
      apply has_dotdot_In in H. congruence. }
  split; [done|]. rewrite Heq. exists (parts slug). by rewrite <- List.app_assoc.
Qed.

Lemma plugin_dir_of_relative_slug_witness :
  plugin_dir ["srv"; "wp"] "akismet" = ["srv"; "wp"; "plugins"; "akismet"].
Proof.
  apply (plugin_dir_of_relative_slug ["srv"; "wp"] "akismet").
  - intros [H|[H|[]]]; discriminate.
  - reflexivity.
  - reflexivity.
Defined.

(** ** The download loop *)

Section Batch.
Variable web : json → response.
Variable download_dir : path.
Variables (min_installs : Z) (max_installs : option Z).

Lemma keep_plugin_within_bounds (now_year : Z) (record : list (string * json)) :
  keep_plugin min_installs max_installs now_year (JDict record) = Ok true →
  ∃ installs,
    py_int (default (JInt 0) (dict_get "active_installs" record)) = Ok installs ∧
    within_bounds min_installs max_installs installs.
Proof.
  intros Hkeep.
  destruct (py_int (default (JInt 0) (dict_get "active_installs" record)))
    as [installs|e] eqn:Hi.
  - exists installs. split; [done|].
    rewrite (keep_plugin_bounds _ _ _ _ _ Hi) in Hkeep. injection Hkeep as Hkeep.
    apply andb_true_iff in Hkeep as [Hkeep _]. apply andb_true_iff in Hkeep as [Hmin Hmax].
    split; [by apply Z.leb_le|].
    destruct max_installs as [m|]; [|by left].
    right. exists m. split; [done|by apply Z.leb_le].
  - unfold keep_plugin, py_lt in Hkeep. cbn [py_get mbind result_bind] in Hkeep.
    by rewrite Hi in Hkeep.
Qed.


Lemma download_sent (plugin : json) (w : world) :
  sent (snd (download_and_extract_plugin web download_dir min_installs max_installs plugin w))
  = sent w ∨
  sent (snd (download_and_extract_plugin web download_dir min_installs max_installs plugin w))
  = sent w ++ [ArchiveRequest (requested_link plugin)].
Proof.
  unfold download_and_extract_plugin, requested_link.
  destruct (py_getitem plugin "slug") as [slug|]; [|by left].
  destruct (py_get plugin "active_installs" (JInt 0)) as [installs|]; [|by left].
  destruct (py_lt installs min_installs) as [[]|]; [by left| |by left].
  destruct (match max_installs with Some m => py_gt installs m | None => Ok false end)
    as [[]|]; [by left| |by left].
  destruct (py_get plugin "download_link" JNull) as [link|]; [|by left].
  destruct (plugin_path_of download_dir slug) as [p|]; [|by left].
  right. by destruct (web link).
Qed.

Lemma download_loop_sent (plugins : list json) (w : world) :
  ∃ links,
    sent (snd (download_loop web download_dir min_installs max_installs plugins w))
    = sent w ++ map ArchiveRequest links ∧
    links `sublist_of` map requested_link plugins.
Proof.
  revert w. induction plugins as [|plugin plugins IH]; intros w.
  - exists []. split; [by rewrite List.app_nil_r|done].
  - cbn [download_loop map].
    pose proof (download_sent plugin w) as Hstep.
    destruct (download_and_extract_plugin web download_dir min_installs max_installs plugin w)
      as [outcome w'].
    cbn [snd] in Hstep.
    assert (∃ links,
              sent (snd (download_loop web download_dir min_installs max_installs plugins w'))
              = sent w ++ map ArchiveRequest links ∧
              links `sublist_of` requested_link plugin :: map requested_link plugins)
      as Hgo.
    { destruct (IH w') as (links & Hsent & Hsub). destruct Hstep as [Hw'|Hw'].
      - exists links. split; [by rewrite Hsent, Hw'|by apply sublist_cons].
      - exists (requested_link plugin :: links).
        split; [by rewrite Hsent, Hw', <- List.app_assoc|by apply sublist_skip]. }
    assert (∃ links,
              sent w' = sent w ++ map ArchiveRequest links ∧
              links `sublist_of` requested_link plugin :: map requested_link plugins)
      as Hstop.
    { destruct Hstep as [Hw'|Hw'].
      - exists []. split; [by rewrite Hw', List.app_nil_r|apply sublist_nil_l].
      - exists [requested_link plugin]. split; [done|apply sublist_skip, sublist_nil_l]. }
    destruct outcome as [[]|]; try done.
Qed.

(** X11: the download loop sends nothing but requests for archives: at
    most one per record, for the record's [download_link], in the order
    of the records; what was sent before stays in front. *)
Theorem batch_requests (plugins : list json) (w : world) :
  ∃ links,
    sent (snd (download_valid web download_dir min_installs max_installs (JList plugins) w))
    = sent w ++ map ArchiveRequest links ∧
    links `sublist_of` map requested_link plugins.
Proof.
  unfold download_valid. destruct plugins as [|plugin plugins].
  - exists []. split; [by rewrite List.app_nil_r|done].
  - cbn [py_not py_iter]. apply download_loop_sent.
Qed.


End Batch.




(** ** Directories that are there *)

Lemma lookup_is_dir (seg : string) (q : path) (entries : gmap string node) :
  path_is_dir (seg :: q) (Dir entries) =
  match entries !! seg with
  | Some child => path_is_dir q child
  | None => false
  end.
Proof. unfold path_is_dir. rewrite lookup_path_cons. by destruct (entries !! seg). Qed.

Lemma path_is_dir_File (q : path) (d : string) : path_is_dir q (File d) = false.
Proof. by destruct q. Qed.

Lemma mkdir_parents_there (q : path) (n : node) :
  path_is_dir q n = true → mkdir_parents q n = Ok n.
Proof.
  revert n. induction q as [|seg q IH]; intros [d0|entries] Hd;
    try (by rewrite path_is_dir_File in Hd).
  - by rewrite mkdir_parents_nil.
  - rewrite lookup_is_dir in Hd. rewrite mkdir_parents_cons.
    destruct (entries !! seg) as [child|] eqn:Hc; [|done].
    rewrite (IH child Hd). cbn [mbind result_bind]. by rewrite insert_id.
Qed.

(** X14: [os.makedirs(..., exist_ok=True)] and
    [mkdir(parents=True, exist_ok=True)] on a directory that is there are
    no error and change nothing, so a call that succeeded can be repeated:
    the second call gives the tree of the first. *)
Theorem makedirs_exist_ok (q : path) (n n' : node) :
  mkdir_parents q n = Ok n' →
  path_is_dir q n' = true ∧ mkdir_parents q n' = Ok n'.
Proof.
  intros Hmk.
  assert (path_is_dir q n' = true) as Hd
    by (apply (mkdir_parents_dirs q n n' Hmk q []); by rewrite List.app_nil_r).
  split; [done|by apply mkdir_parents_there].
Qed.

Lemma makedirs_exist_ok_witness :
  path_is_dir ["srv"; "plugins"; "bar"; "inc"] (fresh_dirs ["srv"; "plugins"; "bar"; "inc"]) = true ∧
  mkdir_parents ["srv"; "plugins"; "bar"; "inc"] (fresh_dirs ["srv"; "plugins"; "bar"; "inc"])
  = Ok (fresh_dirs ["srv"; "plugins"; "bar"; "inc"]).
Proof.
  apply (makedirs_exist_ok ["srv"; "plugins"; "bar"; "inc"] (Dir ∅)).
  apply mkdir_parents_empty.
Defined.

Lemma mkdir_parents_new_dirs (q : path) (n n' : node) (x : path) :
  mkdir_parents q n = Ok n' →
  path_is_dir x n' = true →
  path_is_dir x n = true ∨ x `prefix_of` q.
Proof.
  revert n n' x. induction q as [|seg q IH]; intros [d0|entries] n' x;
    try (by rewrite mkdir_parents_File).
  - rewrite mkdir_parents_nil. intros [= <-]. by left.
  - rewrite mkdir_parents_cons. destruct x as [|s x]; [intros _ _; right; apply prefix_nil|].
    destruct (entries !! seg) as [child|] eqn:Hc.
    + destruct (mkdir_parents q child) as [child'|] eqn:Hmk; [|done].
      cbn [mbind result_bind]. intros [= <-]. rewrite !lookup_is_dir.
      destruct (decide (s = seg)) as [->|Hne].
      * rewrite lookup_insert_eq, Hc. intros Hd.
        destruct (IH child child' x Hmk Hd) as [?|?]; [by left|].
        right. by apply prefix_cons.
      * rewrite lookup_insert_ne by done. by left.
    + intros [= <-]. rewrite !lookup_is_dir.
      destruct (decide (s = seg)) as [->|Hne].
      * rewrite lookup_insert_eq, Hc. intros Hd. right. apply prefix_cons.
        destruct (IH (Dir ∅) (fresh_dirs q) x (mkdir_parents_empty q) Hd) as [He|?]; [|done].
        destruct x as [|s' x]; [apply prefix_nil|].
        by rewrite lookup_is_dir, lookup_empty in He.
      * rewrite lookup_insert_ne by done. by left.
Qed.

Lemma write_file_succeeds (q : path) (leaf data : string) (n : node) :
  path_is_dir q n = true →
  path_is_dir (q ++ [leaf]) n = false →
  ∃ n', write_file (q ++ [leaf]) data n = Ok n'.
Proof.
  revert n. induction q as [|seg q IH]; intros [d0|entries] Hd Hleaf;
    try (by rewrite path_is_dir_File in Hd).
  - cbn [app] in *. rewrite write_file_one. rewrite lookup_is_dir in Hleaf.
    destruct (entries !! leaf) as [[d1|e1]|]; [by eexists|done|by eexists].
  - cbn [app] in *. rewrite lookup_is_dir in Hd, Hleaf.
    rewrite write_file_cons by (by destruct q).
    destruct (entries !! seg) as [child|]; [|done].
    destruct (IH child Hd Hleaf) as [child' ->]. by eexists.
Qed.

(** ** The whole run, with and without the cache *)

Section Runs.
Variable bootstrap : option json.
Variable net : Z → option json.
Variable completion : list Z → list Z.
Variable web : json → response.
Variable now_year : Z.
Variable download_dir : path.
Variables (min_installs : Z) (max_installs max_pages : option Z).

Lemma download_valid_sent (valid_plugins : json) (w : world) :
  ∃ links,
    sent (snd (download_valid web download_dir min_installs max_installs valid_plugins w))
    = sent w ++ map ArchiveRequest links.
Proof.
  unfold download_valid.
  destruct (py_not valid_plugins); [exists []; by rewrite List.app_nil_r|].
  destruct (py_iter valid_plugins) as [plugins|]; [|exists []; by rewrite List.app_nil_r].
  destruct (download_loop_sent web download_dir min_installs max_installs plugins w)
    as (links & Hsent & _).
  by exists links.
Qed.

(** X15: with [use_cache] and a cache file in place the registry is not
    asked for a single page: the run sends requests for archives only, and
    it is the same run whatever the registry would have answered, the year
    is and [max_pages] says. *)
Theorem cached_run_asks_no_page (w : world) (text : string) :
  lookup_path (cache_path download_dir) (fs w) = Some (File text) →
  (∃ links,
     sent (snd (download_all_plugins bootstrap net completion web now_year download_dir
                  min_installs max_installs max_pages true w))
     = sent w ++ map ArchiveRequest links) ∧
  ∀ bootstrap' net' completion' now_year' max_pages',
    download_all_plugins bootstrap' net' completion' web now_year' download_dir
      min_installs max_installs max_pages' true w =
    download_all_plugins bootstrap net completion web now_year download_dir
      min_installs max_installs max_pages true w.
Proof.
  intros Hcache. unfold download_all_plugins.
  destruct (mkdir_parents (download_dir ++ ["plugins"]) (fs w)) as [fs0|e] eqn:Hmk.
  - apply (mkdir_parents_files _ _ _ Hmk) in Hcache.
    assert (path_exists (cache_path download_dir) fs0 = true) as ->.
    { unfold path_exists. rewrite Hcache. by apply bool_decide_eq_true_2. }
    cbn [andb]. split; [|done].
    destruct (load_cache (cache_path download_dir) fs0) as [valid_plugins|e].
    + apply (download_valid_sent valid_plugins (mk_world fs0 (sent w))).
    + exists []. by rewrite List.app_nil_r.
  - split; [|done]. exists []. by rewrite List.app_nil_r.
Qed.

(** X16: without a page count from the first request the run ends
    there: no file is written, removed or changed, so no cache is saved
    and no plugin unpacked, and nothing but the request for page 1 has been
    sent. *)
Theorem run_stops_without_page_count (w : world) :
  (∀ total, ¬ yields_page_count bootstrap total) →
  (∀ x d,
     lookup_path x (fs (snd (download_all_plugins bootstrap net completion web now_year
                               download_dir min_installs max_installs max_pages false w)))
     = Some (File d) ↔ lookup_path x (fs w) = Some (File d)) ∧
  (sent (snd (download_all_plugins bootstrap net completion web now_year
                download_dir min_installs max_installs max_pages false w)) = sent w ∨
   sent (snd (download_all_plugins bootstrap net completion web now_year
                download_dir min_installs max_installs max_pages false w))
   = sent w ++ [PageRequest 1]).
Proof.
  intros Hno. unfold download_all_plugins.
  destruct (mkdir_parents (download_dir ++ ["plugins"]) (fs w)) as [fs0|e] eqn:Hmk.
  - cbn [andb].
    destruct (enumerate_not_bootstrapped bootstrap net completion now_year
                min_installs max_installs max_pages Hno) as [Hfst Hsnd].
    rewrite Hfst.
    destruct (snd (enumerate bootstrap net completion min_installs max_installs max_pages
                     now_year)) as [|ex|vs].
    + split; [apply (mkdir_parents_files _ _ _ Hmk)|by right].
    + split; [apply (mkdir_parents_files _ _ _ Hmk)|by right].
    + by destruct (Hsnd vs).
  - split; [done|by left].
Qed.
End Runs.

Lemma cached_run_asks_no_page_witness :
  ∃ links,
    sent (snd (download_all_plugins None net_page2_down (@rev Z) web_down 2025 ["srv"]
                 1000 None None true (mk_world shared_fs [])))
    = map ArchiveRequest links.
Proof.
  destruct (cached_run_asks_no_page None net_page2_down (@rev Z) web_down 2025 ["srv"]
              1000 None None (mk_world shared_fs []) "[]" eq_refl) as [[links Hlinks] _].
  by exists links.
Defined.

Lemma run_stops_without_page_count_witness :
  lookup_path ["srv"; "plugins_cache.json"]
    (fs (snd (download_all_plugins None net_page2_down (@rev Z) web_down 2025 ["srv"]
                1000 None None false (mk_world shared_fs [])))) = Some (File "[]").
Proof.
  apply (run_stops_without_page_count None net_page2_down (@rev Z) web_down 2025 ["srv"]
           1000 None None (mk_world shared_fs [])).
  - intros total (d & info & pages & Hb & _). discriminate.
  - reflexivity.
Defined.

(** ** The files a run leaves alone *)

Section Files.
Variable web : json → response.
Variable download_dir : path.
Variables (min_installs : Z) (max_installs : option Z).

Lemma download_fs_any (plugin : json) (w : world) :
  fs (snd (download_and_extract_plugin web download_dir min_installs max_installs plugin w))
  = fs w ∨
  ∃ record slug link,
    plugin = JDict record ∧ dict_get "slug" record = Some (JStr slug) ∧
    fs (snd (download_and_extract_plugin web download_dir min_installs max_installs plugin w))
    = unpacked (plugin_dir download_dir slug) (web link) (fs w).
Proof.
  destruct plugin as [|b|n|s|l|record]; try (by left).
  destruct (dict_get "slug" record) as [slug|] eqn:Hslug.
  - destruct slug as [|b|n|slug|l|d];
      try (left; unfold download_and_extract_plugin; cbn [py_getitem py_get]; rewrite Hslug;
           destruct (py_lt _ min_installs) as [[]|]; try done;
           by destruct (match max_installs with Some m => py_gt _ m | None => Ok false end)
             as [[]|]).
    destruct (download_fs_slug web download_dir min_installs max_installs record slug w Hslug)
      as [?|[link ?]]; [by left|].
    right. by exists record, slug, link.
  - left. unfold download_and_extract_plugin. cbn [py_getitem]. by rewrite Hslug.
Qed.

Lemma download_loop_files (plugins : list json) (w : world) (x : path) (d : string) :
  (∀ record slug,
     In (JDict record) plugins → dict_get "slug" record = Some (JStr slug) →
     ¬ plugin_dir download_dir slug `prefix_of` x) →
  lookup_path x (fs (snd (download_loop web download_dir min_installs max_installs plugins w)))
  = Some (File d) ↔ lookup_path x (fs w) = Some (File d).
Proof.
  revert w. induction plugins as [|plugin plugins IH]; intros w Hout; [done|].
  cbn [download_loop].
  assert (lookup_path x (fs (snd (download_and_extract_plugin web download_dir min_installs
                                    max_installs plugin w))) = Some (File d) ↔
          lookup_path x (fs w) = Some (File d)) as Hstep.
  { destruct (download_fs_any plugin w) as [->|(record & slug & link & -> & Hslug & ->)];
      [done|].
    apply unpacked_outside. apply (Hout record slug); [by left|done]. }
  destruct (download_and_extract_plugin web download_dir min_installs max_installs plugin w)
    as [outcome w'].
  cbn [snd] in Hstep.
  assert (lookup_path x (fs (snd (download_loop web download_dir min_installs max_installs
                                    plugins w'))) = Some (File d) ↔
          lookup_path x (fs w) = Some (File d)) as Hgo.
  { rewrite IH; [done|]. intros record slug Hin. apply Hout. by right. }
  destruct outcome as [[]|]; try done.
Qed.

End Files.


Section Rerun.
Variable bootstrap : option json.
Variable net : Z → option json.
Variable completion : list Z → list Z.
Variable web : json → response.
Variable now_year : Z.
Variable download_dir : path.
Variables (min_installs : Z) (max_installs max_pages : option Z).

End Rerun.


(** ** The slug and the record *)

Lemma resolve_snoc_dotdot (p : path) : resolve (p ++ [".."]) = removelast (resolve p).
Proof. unfold resolve. by rewrite fold_left_app. Qed.

Lemma resolve_snoc_plain (p : path) (seg : string) :
  seg ≠ ".." → resolve (p ++ [seg]) = resolve p ++ [seg].
Proof.
  intros Hseg. apply resolve_app_plain. intros [H|[]]. by apply Hseg.
Qed.

(** X19: the slug is not checked the way the names of the members are.
    With an absolute slug the plugin directory is the path of the slug,
    whatever the download directory is; with a slug that is [..] it is
    the download directory itself. *)
Theorem slug_is_not_checked (download_dir : path) (slug : string) :
  (is_absolute slug = true → plugin_dir download_dir slug = resolve (parts slug)) ∧
  (is_absolute slug = false → parts slug = [".."] →
   plugin_dir download_dir slug = resolve download_dir).
Proof.
  unfold plugin_dir, joinpath. split.
  - by intros ->.
  - intros -> ->. rewrite resolve_snoc_dotdot, resolve_snoc_plain by done.
    apply List.removelast_last.
Qed.

Lemma slug_is_not_checked_witness :
  plugin_dir ["srv"; "wp"] "/etc/cron.d" = ["etc"; "cron.d"] ∧
  plugin_dir ["srv"; "wp"] "./../" = ["srv"; "wp"].
Proof.
  split.
  - by apply (slug_is_not_checked ["srv"; "wp"] "/etc/cron.d").
  - by apply (slug_is_not_checked ["srv"; "wp"] "./../").
Defined.

Section Record.
Variable web : json → response.
Variable download_dir : path.
Variables (min_installs : Z) (max_installs : option Z).

(** X20: [download_and_extract_plugin] reads [slug], [active_installs]
    and [download_link] of the record and nothing else: two records that
    agree on these three keys are handled alike. The date the filter
    looks at, [last_updated], is not looked at again. *)
Theorem download_reads_three_keys (record record' : list (string * json)) (w : world) :
  dict_get "slug" record = dict_get "slug" record' →
  dict_get "active_installs" record = dict_get "active_installs" record' →
  dict_get "download_link" record = dict_get "download_link" record' →
  download_and_extract_plugin web download_dir min_installs max_installs (JDict record) w =
  download_and_extract_plugin web download_dir min_installs max_installs (JDict record') w.
Proof.
  intros Hslug Hinst Hlink. unfold download_and_extract_plugin.
  cbn [py_getitem py_get]. by rewrite Hslug, Hinst, Hlink.
Qed.

(** X21: wider bounds keep more: a record the filter keeps is kept as
    well under a lower [min_installs], under a higher or absent
    [max_installs] and in an earlier year. *)
Theorem wider_bounds_keep_more
    (now_year now_year' min_installs' : Z) (max_installs' : option Z) (plugin : json) :
  keep_plugin min_installs max_installs now_year plugin = Ok true →
  min_installs' ≤ min_installs →
  (max_installs' = None ∨
   ∃ m m', max_installs = Some m ∧ max_installs' = Some m' ∧ m ≤ m') →
  now_year' ≤ now_year →
  keep_plugin min_installs' max_installs' now_year' plugin = Ok true.
Proof.
  intros Hkeep Hmin Hmax Hyear.
  destruct plugin as [|b|n|s|l|record]; try done.
  destruct (keep_plugin_within_bounds min_installs max_installs now_year record Hkeep)
    as (installs & Hi & Hlow & Hhigh).
  rewrite (keep_plugin_bounds _ _ _ _ _ Hi) in Hkeep. injection Hkeep as Hkeep.
  apply andb_true_iff in Hkeep as [_ Hrecent].
  apply recently_updated_iff in Hrecent as (s & dt & Hs & Hdt & Hy).
  rewrite (keep_plugin_bounds _ _ _ _ _ Hi). f_equal.
  apply andb_true_iff. split; [apply andb_true_iff; split|].
  - apply Z.leb_le. lia.
  - destruct Hmax as [->|(m & m' & Hm & -> & Hle)]; [done|].
    apply Z.leb_le. destruct Hhigh as [Hn|(m0 & Hm0 & Hle0)]; [congruence|].
    assert (m0 = m) as -> by congruence. lia.
  - apply recently_updated_iff. exists s, dt. repeat split; try done. lia.
Qed.
End Record.

Lemma download_reads_three_keys_witness :
  download_and_extract_plugin (web_serving archive_usual) ["srv"] 1000 None
    (JDict (plugin_record "bar")) stale_world =
  download_and_extract_plugin (web_serving archive_usual) ["srv"] 1000 None
    (JDict [("download_link", JStr "bar"); ("last_updated", JStr "1999-01-01 1:00am GMT");
            ("active_installs", JInt 3000); ("slug", JStr "bar")]) stale_world.
Proof.
  apply (download_reads_three_keys (web_serving archive_usual) ["srv"] 1000 None).
  - reflexivity.
  - reflexivity.
  - reflexivity.
Defined.

Lemma wider_bounds_keep_more_witness :
  keep_plugin 0 (Some 10000) 2024 (JDict (plugin_record "bar")) = Ok true.
Proof.
  apply (wider_bounds_keep_more 1000 (Some 5000) 2026 2024 0 (Some 10000)).
  - reflexivity.
  - lia.
  - right. exists 5000, 10000. repeat split. lia.
  - lia.
Defined.
